(** * Rescan worker (BEFORE_DOWNLOAD): a shallow embedding of [src/worker.ts]

    The worker is one asynchronous handler that classifies a download request,
    asks Xray (through [context.clients.platformHttp]) whether the artifact is
    scanned, triggers a Force Reindex for that artifact when it is not, and
    answers with a [BeforeDownloadResponse].

    Modelling decisions.
    - JavaScript values that cross the HTTP boundary ([response.data], request
      bodies) are the inductive type [JsVal].
      Numbers are integers ([Z]); NaN and fractional numbers are outside the
      model. The handler only tests such values (truthiness, [===] with a
      string literal); it never prints a number held in a [JsVal].
    - Strings are [string] (sequences of 8-bit characters); [toLowerCase]
      acts on the letters A-Z.
    - The HTTP response follows the shape the source reads: [status] and
      [statusCode] are numbers or missing, [data] is any value, and the
      response itself may be null or undefined.
    - An [async] function is a computation in [Async]: it threads the state of
      the outside world and the log of HTTP calls issued so far, and completes
      normally or by throwing.
    - A thrown value is described by what the [catch] blocks observe of it:
      whether it is an [Error] and its message, what [String(error)] gives,
      the status of its [response], and what [JSON.stringify] gives for the
      data of its [response]. Either conversion may itself throw.
    - [console.log], [console.warn] and [console.error] are not part of the
      modelled state; the arguments the [catch] blocks compute for them are
      evaluated, since evaluating them can throw. *)

From Stdlib Require Import ZArith List String Ascii Bool Lia.
Import ListNotations.
Local Open Scope string_scope.
Local Open Scope Z_scope.
Set Implicit Arguments.
Local Set Warnings "-register-all".

(** ** JavaScript strings *)

Module JsString.

Definition isUpper (c : ascii) : bool :=
  let n := nat_of_ascii c in (Nat.leb 65 n && Nat.leb n 90)%bool.

Definition lowerChar (c : ascii) : ascii :=
  if isUpper c then ascii_of_nat (nat_of_ascii c + 32) else c.

(** [s.toLowerCase()] *)
Fixpoint toLowerCase (s : string) : string :=
  match s with
  | EmptyString => EmptyString
  | String c s' => String (lowerChar c) (toLowerCase s')
  end.

(** [s.startsWith(p)] *)
Fixpoint startsWith (s p : string) {struct p} : bool :=
  match p with
  | EmptyString => true
  | String a p' =>
      match s with
      | EmptyString => false
      | String b s' => (Ascii.eqb a b && startsWith s' p')%bool
      end
  end.

(** [s.includes(needle)] *)
Fixpoint includes (s needle : string) : bool :=
  (startsWith s needle ||
   match s with
   | EmptyString => false
   | String _ s' => includes s' needle
   end)%bool.

(** Truthiness of a string: every string but the empty one. *)
Definition truthy (s : string) : bool :=
  match s with EmptyString => false | String _ _ => true end.

End JsString.

(** ** JavaScript values

    An object is the list of its own properties, each key occurring once (as
    in a decoded JSON document); [Js.lookup] returns the value of the first
    entry with the key. *)

Inductive JsVal : Type :=
| JUndefined
| JNull
| JBool (b : bool)
| JNum (n : Z)
| JStr (s : string)
| JArr (items : list JsVal)
| JObj (fields : list (string * JsVal)).

Module Js.

(** ToBoolean *)
Definition truthy (v : JsVal) : bool :=
  match v with
  | JUndefined | JNull => false
  | JBool b => b
  | JNum n => negb (n =? 0)
  | JStr s => JsString.truthy s
  | JArr _ | JObj _ => true
  end.

Fixpoint lookup (p : string) (fields : list (string * JsVal)) : JsVal :=
  match fields with
  | [] => JUndefined
  | (k, v) :: rest => if String.eqb k p then v else lookup p rest
  end.

(** [v?.p] for a property name [p] that no primitive or array carries
    (here: data, overall, status). *)
Definition get (v : JsVal) (p : string) : JsVal :=
  match v with
  | JObj fields => lookup p fields
  | _ => JUndefined
  end.

(** [v === s] for a string literal [s] *)
Definition eqStr (v : JsVal) (s : string) : bool :=
  match v with
  | JStr t => String.eqb t s
  | _ => false
  end.

(** The characters of a string value. The one template literal of the source
    that interpolates such a value, the message of a scanned artifact, does so
    after the test [=== 'DONE' || === 'PARTIAL'], where the value is a
    string. *)
Definition text (v : JsVal) : string :=
  match v with
  | JStr s => s
  | _ => EmptyString
  end.

End Js.

(** ** The types of [src/types.ts]

    Fields the handler tests for absence ([key], [path], [id], [realm],
    [clientAddress]) are optional here although they are declared [string]:
    at run time the request is a decoded message and the handler guards each
    of them with [?.], [??] or [!]. *)

Module RepoType.
Inductive t :=
| REPO_TYPE_UNSPECIFIED | REPO_TYPE_LOCAL | REPO_TYPE_REMOTE
| REPO_TYPE_FEDERATED | UNRECOGNIZED.
End RepoType.

Module RepoPath.
Record t := {
  key : option string;
  path : option string;
  id : string;
  isRoot : bool;
  isFolder : bool }.
End RepoPath.

Module DownloadMetadata.
Record t := {
  repoPath : option RepoPath.t;
  originalRepoPath : option RepoPath.t;
  name : string;
  headOnly : bool;
  checksum : bool;
  recursive : bool;
  modificationTime : Z;
  directoryRequest : bool;
  metadata : bool;
  lastModified : Z;
  ifModifiedSince : Z;
  servletContextUrl : string;
  uri : string;
  clientAddress : option string;
  zipResourcePath : string;
  zipResourceRequest : bool;
  replaceHeadRequestWithGet : bool;
  repoType : RepoType.t }.
End DownloadMetadata.

Module UserContext.
Record t := {
  id : option string;
  isToken : bool;
  realm : option string }.
End UserContext.

Module BeforeDownloadRequest.
Record t := {
  metadata : option DownloadMetadata.t;
  headers : list (string * list string);
  userContext : option UserContext.t;
  repoPath : option RepoPath.t }.
End BeforeDownloadRequest.

Module DownloadStatus.
Inductive t :=
| DOWNLOAD_UNSPECIFIED | DOWNLOAD_PROCEED | DOWNLOAD_STOP
| DOWNLOAD_WARN | UNRECOGNIZED.

Definition value (s : t) : Z :=
  match s with
  | DOWNLOAD_UNSPECIFIED => 0
  | DOWNLOAD_PROCEED => 1
  | DOWNLOAD_STOP => 2
  | DOWNLOAD_WARN => 3
  | UNRECOGNIZED => -1
  end.
End DownloadStatus.

Module BeforeDownloadResponse.
Record t := {
  status : DownloadStatus.t;
  message : string;
  headers : list (string * string) }.
End BeforeDownloadResponse.

(** ** The platform HTTP client *)

Module HttpResponse.
Record t := {
  status : option Z;
  statusCode : option Z;
  data : JsVal }.
End HttpResponse.

(** What a [throw] carries, as the [catch] blocks of the source observe it.
    - [ErrorValue]: [error instanceof Error] holds; [message] is
      [error.message], a string as the type of [Error] declares.
    - [OtherValue]: any other value; [asString] is what [String(error)] does:
      it yields a string, or it throws (a value without a usable [toString],
      such as [Object.create(null)], throws a TypeError; a [toString] of the
      value's own may throw anything).
    In both, [status] is [error?.response?.status], and [data] describes
    [error?.response?.data]: [None] when it is falsy, otherwise what
    [JSON.stringify] does with it (it throws on a cyclic value or a BigInt). *)
Inductive Thrown : Type :=
| ErrorValue (message : string) (status : option Z) (data : option Conversion)
| OtherValue (asString : Conversion) (status : option Z) (data : option Conversion)
with Conversion : Type :=
| Yields (text : string)
| Raises (error : Thrown).

(** An [Error] with a message and no [response]. *)
Definition ErrorObject (message : string) : Thrown :=
  ErrorValue message None None.

(** [error instanceof Error ? error.message : String(error)] *)
Definition errorMessage (error : Thrown) : Conversion :=
  match error with
  | ErrorValue message _ _ => Yields message
  | OtherValue asString _ _ => asString
  end.

(** [error?.response?.data] *)
Definition responseBodyOf (error : Thrown) : option Conversion :=
  match error with
  | ErrorValue _ _ data => data
  | OtherValue _ _ data => data
  end.

(** [responseBody ? JSON.stringify(responseBody) : ''] *)
Definition responseBodyText (error : Thrown) : Conversion :=
  match responseBodyOf error with
  | Some serialized => serialized
  | None => Yields EmptyString
  end.

Inductive HttpCall :=
| GET (url : string)
| POST (url : string) (body : JsVal).

Module PlatformHttp.
(** How the promise returned by a call settles. *)
Inductive Settled :=
| Resolves (response : option HttpResponse.t)
| Rejects (error : Thrown).

(** [context.clients.platformHttp]: each call observes and may change the
    state of the outside world. *)
Record t (World : Type) := {
  get : string -> World -> Settled * World;
  post : string -> JsVal -> World -> Settled * World }.
End PlatformHttp.

(** ** Asynchronous computations *)

Inductive Completion (A : Type) :=
| Returns (a : A)
| Throws (error : Thrown).
Arguments Throws {A} error.

Record State (World : Type) := {
  world : World;
  calls : list HttpCall }.

Definition Async (World A : Type) : Type :=
  State World -> Completion A * State World.

Definition ret {World A} (a : A) : Async World A :=
  fun st => (Returns a, st).

Definition bind {World A B} (m : Async World A) (k : A -> Async World B)
  : Async World B :=
  fun st =>
    match m st with
    | (Returns a, st') => k a st'
    | (Throws e, st') => (Throws e, st')
    end.

(** [try { body } catch (error) { handler }] *)
Definition tryCatch {World A} (body : Async World A)
  (handler : Thrown -> Async World A) : Async World A :=
  fun st =>
    match body st with
    | (Returns a, st') => (Returns a, st')
    | (Throws e, st') => handler e st'
    end.

(** Evaluating a conversion inside an [async] function: its string, or the
    throw. *)
Definition evaluate {World} (c : Conversion) : Async World string :=
  fun st =>
    match c with
    | Yields text => (Returns text, st)
    | Raises error => (Throws error, st)
    end.

Definition settle {World} (call : HttpCall)
  (r : PlatformHttp.Settled * World) (st : State World)
  : Completion (option HttpResponse.t) * State World :=
  let st' := {| world := snd r; calls := calls st ++ [call] |} in
  match fst r with
  | PlatformHttp.Resolves response => (Returns response, st')
  | PlatformHttp.Rejects error => (Throws error, st')
  end.

(** [await context.clients.platformHttp.get(url)] *)
Definition httpGet {World} (context : PlatformHttp.t World) (url : string)
  : Async World (option HttpResponse.t) :=
  fun st => settle (GET url) (PlatformHttp.get context url (world st)) st.

(** [await context.clients.platformHttp.post(url, body)] *)
Definition httpPost {World} (context : PlatformHttp.t World) (url : string)
  (body : JsVal) : Async World (option HttpResponse.t) :=
  fun st => settle (POST url body) (PlatformHttp.post context url body (world st)) st.

(** A handler invocation starts with an empty call log. *)
Definition run {World A} (m : Async World A) (w : World)
  : Completion A * State World :=
  m {| world := w; calls := [] |}.

Declare Scope async_scope.
Delimit Scope async_scope with async.
Notation "x <- m ;; k" := (bind m (fun x => k))
  (at level 100, m at next level, right associativity) : async_scope.
Notation "'try' body 'catch' x => handler" := (tryCatch body (fun x => handler))
  (at level 100, body at next level, x name, handler at level 100) : async_scope.

(** ** The handler of [src/worker.ts] *)

Definition XRAY_ARTIFACT_STATUS_API : string := "/xray/api/v1/artifact/status".
Definition XRAY_FORCE_REINDEX_API : string := "/xray/api/v1/forceReindex".
Definition XRAY_PING_API : string := "/xray/api/v1/system/ping".

(** The one-character string holding a double quote. *)
Definition doubleQuote : string := String (ascii_of_nat 34) EmptyString.

Definition respond (status : DownloadStatus.t) (message : string)
  : BeforeDownloadResponse.t :=
  {| BeforeDownloadResponse.status := status;
     BeforeDownloadResponse.message := message;
     BeforeDownloadResponse.headers := [] |}.

(** [a ?? b] on optional values *)
Definition orElse {A} (a : option A) (b : A) : A :=
  match a with Some x => x | None => b end.

(** [a?.f] where [f] is itself optional *)
Definition chain {A B} (a : option A) (f : A -> option B) : option B :=
  match a with Some x => f x | None => None end.

(** [data.metadata?.repoPath] *)
Definition targetRepoPath (data : BeforeDownloadRequest.t) : option RepoPath.t :=
  chain (BeforeDownloadRequest.metadata data) DownloadMetadata.repoPath.

(** [data.metadata?.repoPath?.key] *)
Definition repoKeyOf (data : BeforeDownloadRequest.t) : option string :=
  chain (targetRepoPath data) RepoPath.key.

(** [data.metadata?.repoPath?.path] *)
Definition artifactPathOf (data : BeforeDownloadRequest.t) : option string :=
  chain (targetRepoPath data) RepoPath.path.

(** [data.metadata?.repoPath?.isFolder || data.metadata?.repoPath?.isRoot] *)
Definition isFolderOrRoot (data : BeforeDownloadRequest.t) : bool :=
  match targetRepoPath data with
  | Some rp => RepoPath.isFolder rp || RepoPath.isRoot rp
  | None => false
  end.

(** [!s] for an optional string: undefined and the empty string are falsy. *)
Definition falsy (s : option string) : bool :=
  match s with
  | Some t => negb (JsString.truthy t)
  | None => true
  end.

Definition isXrayIndexingRequest (data : BeforeDownloadRequest.t) : bool :=
  let userId :=
    orElse (option_map JsString.toLowerCase
              (chain (BeforeDownloadRequest.userContext data) UserContext.id)) "" in
  let realm :=
    orElse (option_map JsString.toLowerCase
              (chain (BeforeDownloadRequest.userContext data) UserContext.realm)) "" in
  let clientAddr :=
    JsString.toLowerCase
      (orElse (chain (BeforeDownloadRequest.metadata data)
                 DownloadMetadata.clientAddress) "") in
  if JsString.includes userId "xray" then true
  else if JsString.includes realm "xray" then true
  else if String.eqb clientAddr "127.0.0.1"
          || String.eqb clientAddr "::1"
          || String.eqb clientAddr "localhost"
          || JsString.startsWith clientAddr "127."
  then true
  else false.

(** [response?.data] *)
Definition dataOf (response : option HttpResponse.t) : JsVal :=
  match response with
  | Some r => HttpResponse.data r
  | None => JUndefined
  end.

(** [response?.status ?? response?.statusCode ?? response?.status] *)
Definition statusCodeOf (response : option HttpResponse.t) : option Z :=
  match chain response HttpResponse.status with
  | Some c => Some c
  | None =>
      match chain response HttpResponse.statusCode with
      | Some c => Some c
      | None => chain response HttpResponse.status
      end
  end.

(** The body of the Force Reindex request: [{ artifacts: [{ repository, path }] }] *)
Definition reindexBody (repo path : string) : JsVal :=
  JObj [("artifacts", JArr [JObj [("repository", JStr repo); ("path", JStr path)]])].

(** The body of the status request: [{ repo, path }] *)
Definition statusBody (repo path : string) : JsVal :=
  JObj [("repo", JStr repo); ("path", JStr path)].

Section Worker.

Context {World : Type}.
Variable context : PlatformHttp.t World.

Local Open Scope async_scope.

Definition checkXrayAvailable : Async World bool :=
  try
    (response <- httpGet context XRAY_PING_API ;;
     ret (Js.eqStr (Js.get (dataOf response) "status") "pong"))
  catch error =>
    (_errMsg <- evaluate (errorMessage error) ;;
     ret false).

(** Returns the overall status, or [JNull] for the source's [null]. The
    [JSON.stringify(response?.data)] of the warning is applied to the decoded
    body of a response, a [JsVal], on which it does not throw. *)
Definition getArtifactScanStatus (repo path : string) : Async World JsVal :=
  try
    (response <- httpPost context XRAY_ARTIFACT_STATUS_API (statusBody repo path) ;;
     let overallStatus := Js.get (Js.get (dataOf response) "overall") "status" in
     if Js.truthy overallStatus then ret overallStatus
     else ret JNull)
  catch error =>
    (_errMsg <- evaluate (errorMessage error) ;;
     ret JNull).

Definition triggerForceReindexArtifact (repo path : string) : Async World bool :=
  try
    (response <- httpPost context XRAY_FORCE_REINDEX_API (reindexBody repo path) ;;
     let statusCode := statusCodeOf response in
     if match statusCode with
        | Some c => (200 <=? c) && (c <? 300)
        | None => false
        end
     then ret true
     else if match statusCode with
             | Some c => 200 <=? c
             | None => true
             end
     then ret true
     else ret false)
  catch error =>
    (_errMsg <- evaluate (errorMessage error) ;;
     _responseBody <- evaluate (responseBodyText error) ;;
     ret false).

(** [scanStatus !== null && (scanStatus === 'DONE' || scanStatus === 'PARTIAL')] *)
Definition isScanned (scanStatus : JsVal) : bool :=
  negb (match scanStatus with JNull => true | _ => false end)
  && (Js.eqStr scanStatus "DONE" || Js.eqStr scanStatus "PARTIAL").

(** The handler over arbitrary implementations of its three stages; the
    exported handler [rescanWorker] below instantiates them with the functions
    above. *)
Section Stages.

Variable checkAvailable : Async World bool.
Variable getScanStatus : string -> string -> Async World JsVal.
Variable triggerReindex : string -> string -> Async World bool.

(** The statements inside the handler's [try] block. *)
Definition resolveAndRemediate (repoKey artifactPath : string)
  : Async World BeforeDownloadResponse.t :=
  isXrayAvailable <- checkAvailable ;;
  if negb isXrayAvailable then
    ret (respond DownloadStatus.DOWNLOAD_WARN
           "Could not check Xray scan status. Xray may be unavailable. Proceeding with warning.")
  else
    scanStatus <- getScanStatus repoKey artifactPath ;;
    if isScanned scanStatus then
      ret (respond DownloadStatus.DOWNLOAD_PROCEED
             ("Artifact is scanned (status: " ++ Js.text scanStatus
              ++ "). Proceeding with download."))
    else
      reindexTriggered <- triggerReindex repoKey artifactPath ;;
      if reindexTriggered then
        ret (respond DownloadStatus.DOWNLOAD_STOP
               "Artifact is not scanned. Reindex has been triggered for this artifact. Please try again shortly once the reindex completes.")
      else
        ret (respond DownloadStatus.DOWNLOAD_STOP
               ("Artifact is not scanned. Could not trigger reindex. Please run "
                ++ doubleQuote ++ "Reindex existing artifacts" ++ doubleQuote
                ++ " in Xray for this repo, then try again.")).

Definition rescanWorkerWith (data : BeforeDownloadRequest.t)
  : Async World BeforeDownloadResponse.t :=
  let repoKey := repoKeyOf data in
  let artifactPath := artifactPathOf data in
  if falsy repoKey || falsy artifactPath then
    ret (respond DownloadStatus.DOWNLOAD_STOP
           "Unable to validate artifact. Missing repository or path information.")
  else if isFolderOrRoot data then
    ret (respond DownloadStatus.DOWNLOAD_PROCEED
           "Skipping folder/root - scan check only applies to artifacts.")
  else if isXrayIndexingRequest data then
    ret (respond DownloadStatus.DOWNLOAD_PROCEED "Allowing Xray indexing request.")
  else
    try resolveAndRemediate (orElse repoKey "") (orElse artifactPath "")
    catch error =>
      (errMsg <- evaluate (errorMessage error) ;;
       ret (respond DownloadStatus.DOWNLOAD_STOP
              ("Error during scan validation: " ++ errMsg
               ++ ". Please try again."))).

End Stages.

(** The default export of [src/worker.ts]. *)
Definition rescanWorker (data : BeforeDownloadRequest.t)
  : Async World BeforeDownloadResponse.t :=
  rescanWorkerWith checkXrayAvailable getArtifactScanStatus
    triggerForceReindexArtifact data.

End Worker.

(** ** Vocabulary of the specification *)

(** The liveness probe succeeds: the ping call resolves with a body whose
    [status] is the string pong. *)
Definition livenessOk (s : PlatformHttp.Settled) : bool :=
  match s with
  | PlatformHttp.Resolves response =>
      Js.eqStr (Js.get (dataOf response) "status") "pong"
  | PlatformHttp.Rejects _ => false
  end.

(** The concrete overall status a status query returned, if it returned one:
    the query resolved and [data.overall.status] is truthy. *)
Definition overallStatus (s : PlatformHttp.Settled) : option JsVal :=
  match s with
  | PlatformHttp.Resolves response =>
      let v := Js.get (Js.get (dataOf response) "overall") "status" in
      if Js.truthy v then Some v else None
  | PlatformHttp.Rejects _ => None
  end.

Inductive ScanVerdict := Scanned | Unscanned | Unknown.

(** The tri-state verdict of the specification: DONE and PARTIAL are scanned,
    any other concrete status is unscanned, a failed query or a payload
    without an overall status is unknown. *)
Definition verdictOf (s : PlatformHttp.Settled) : ScanVerdict :=
  match overallStatus s with
  | Some v => if Js.eqStr v "DONE" || Js.eqStr v "PARTIAL" then Scanned else Unscanned
  | None => Unknown
  end.

(** The call threw (its promise was rejected). *)
Definition threw (s : PlatformHttp.Settled) : bool :=
  match s with
  | PlatformHttp.Resolves _ => false
  | PlatformHttp.Rejects _ => true
  end.

(** The request passes the three guards of the classifier: repository key and
    path are present and non-empty, the target is neither a folder nor a
    root, and the originator is not recognised as Xray itself. *)
Definition applicable (data : BeforeDownloadRequest.t) : bool :=
  negb (falsy (repoKeyOf data) || falsy (artifactPathOf data))
  && negb (isFolderOrRoot data)
  && negb (isXrayIndexingRequest data).

(** The call is a POST to the Force Reindex endpoint; [reindexCalls] keeps
    those calls of a log. *)
Definition isReindexCall (c : HttpCall) : bool :=
  match c with
  | POST url _ => String.eqb url XRAY_FORCE_REINDEX_API
  | GET _ => false
  end.

Definition reindexCalls (log : list HttpCall) : list HttpCall :=
  filter isReindexCall log.

(** The disposition, the message and the call log of a finished invocation. *)
Definition statusOf {World} (r : Completion BeforeDownloadResponse.t * State World)
  : option DownloadStatus.t :=
  match fst r with
  | Returns response => Some (BeforeDownloadResponse.status response)
  | Throws _ => None
  end.

Definition messageOf {World} (r : Completion BeforeDownloadResponse.t * State World)
  : option string :=
  match fst r with
  | Returns response => Some (BeforeDownloadResponse.message response)
  | Throws _ => None
  end.

Definition callsOf {World A} (r : Completion A * State World) : list HttpCall :=
  calls (snd r).

(** The replies of the scanning service in the order the handler asks for
    them, starting from the world [w]. *)
Section Scenario.

Context {World : Type}.
Variable context : PlatformHttp.t World.
Variables repo path : string.
Variable w : World.

Definition pingReply : PlatformHttp.Settled * World :=
  PlatformHttp.get context XRAY_PING_API w.

Definition statusReply : PlatformHttp.Settled * World :=
  PlatformHttp.post context XRAY_ARTIFACT_STATUS_API (statusBody repo path)
    (snd pingReply).

Definition reindexReply : PlatformHttp.Settled * World :=
  PlatformHttp.post context XRAY_FORCE_REINDEX_API (reindexBody repo path)
    (snd statusReply).

End Scenario.

(** The messages of the two remediation outcomes. *)
Definition reindexTriggeredMessage : string :=
  "Artifact is not scanned. Reindex has been triggered for this artifact. Please try again shortly once the reindex completes.".

Definition manualReindexMessage : string :=
  "Artifact is not scanned. Could not trigger reindex. Please run "
  ++ doubleQuote ++ "Reindex existing artifacts" ++ doubleQuote
  ++ " in Xray for this repo, then try again.".

Definition cannotValidateMessage : string :=
  "Unable to validate artifact. Missing repository or path information.".

(** A concrete metadata record and request, used to build examples. *)
Definition metadataFor (rp : option RepoPath.t) (addr : option string)
  : DownloadMetadata.t :=
  {| DownloadMetadata.repoPath := rp;
     DownloadMetadata.originalRepoPath := rp;
     DownloadMetadata.name := "lib.jar";
     DownloadMetadata.headOnly := false;
     DownloadMetadata.checksum := false;
     DownloadMetadata.recursive := false;
     DownloadMetadata.modificationTime := 0;
     DownloadMetadata.directoryRequest := false;
     DownloadMetadata.metadata := false;
     DownloadMetadata.lastModified := 0;
     DownloadMetadata.ifModifiedSince := 0;
     DownloadMetadata.servletContextUrl := "http://artifactory/";
     DownloadMetadata.uri := "/generic-local/a/b/lib.jar";
     DownloadMetadata.clientAddress := addr;
     DownloadMetadata.zipResourcePath := EmptyString;
     DownloadMetadata.zipResourceRequest := false;
     DownloadMetadata.replaceHeadRequestWithGet := false;
     DownloadMetadata.repoType := RepoType.REPO_TYPE_LOCAL |}.

Definition requestFor (rp : option RepoPath.t) (user realm : string)
  (addr : string) : BeforeDownloadRequest.t :=
  {| BeforeDownloadRequest.metadata := Some (metadataFor rp (Some addr));
     BeforeDownloadRequest.headers := [];
     BeforeDownloadRequest.userContext :=
       Some {| UserContext.id := Some user;
               UserContext.isToken := false;
               UserContext.realm := Some realm |};
     BeforeDownloadRequest.repoPath := rp |}.

Definition target (key path : option string) (isRoot isFolder : bool)
  : RepoPath.t :=
  {| RepoPath.key := key; RepoPath.path := path; RepoPath.id := "generic-local:a/b/lib.jar";
     RepoPath.isRoot := isRoot; RepoPath.isFolder := isFolder |}.

(** Alice downloads generic-local/a/b/lib.jar from 10.0.0.5. *)
Definition aliceRequest : BeforeDownloadRequest.t :=
  requestFor (Some (target (Some "generic-local") (Some "a/b/lib.jar") false false))
    "alice" "internal" "10.0.0.5".

(** A scanning service without state, given by its three replies. *)
Definition scriptedXray (ping status reindex : PlatformHttp.Settled)
  : PlatformHttp.t unit :=
  {| PlatformHttp.get := fun _ w => (ping, w);
     PlatformHttp.post := fun url _ w =>
       if String.eqb url XRAY_ARTIFACT_STATUS_API then (status, w)
       else (reindex, w) |}.

Definition pong : PlatformHttp.Settled :=
  PlatformHttp.Resolves
    (Some {| HttpResponse.status := Some 200; HttpResponse.statusCode := None;
             HttpResponse.data := JObj [("status", JStr "pong")] |}).

Definition overall (status : string) : PlatformHttp.Settled :=
  PlatformHttp.Resolves
    (Some {| HttpResponse.status := Some 200; HttpResponse.statusCode := None;
             HttpResponse.data :=
               JObj [("overall", JObj [("status", JStr status)])] |}).

Definition answers (code : Z) : PlatformHttp.Settled :=
  PlatformHttp.Resolves
    (Some {| HttpResponse.status := Some code; HttpResponse.statusCode := None;
             HttpResponse.data := JObj [] |}).

Definition fails (message : string) : PlatformHttp.Settled :=
  PlatformHttp.Rejects (ErrorObject message).

(** What [getArtifactScanStatus] hands back for a settled status query. *)
Definition scanStatusOf (s : PlatformHttp.Settled) : JsVal :=
  match overallStatus s with
  | Some v => v
  | None => JNull
  end.

(** What [triggerForceReindexArtifact] hands back for a settled reindex call. *)
Definition reindexAccepted (s : PlatformHttp.Settled) : bool :=
  match s with
  | PlatformHttp.Resolves response =>
      match statusCodeOf response with
      | Some c => 200 <=? c
      | None => true
      end
  | PlatformHttp.Rejects _ => false
  end.

Definition warningMessage : string :=
  "Could not check Xray scan status. Xray may be unavailable. Proceeding with warning.".

Definition scannedMessage (scanStatus : string) : string :=
  "Artifact is scanned (status: " ++ scanStatus ++ "). Proceeding with download.".

Definition faultMessage (errMsg : string) : string :=
  "Error during scan validation: " ++ errMsg ++ ". Please try again.".

(** The root of generic-local: a root, a folder, and its path is empty. *)
Definition rootRequest : BeforeDownloadRequest.t :=
  requestFor (Some (target (Some "generic-local") (Some EmptyString) true true))
    "alice" "internal" "10.0.0.5".

(** A folder whose repository key is missing. *)
Definition folderWithoutKey : BeforeDownloadRequest.t :=
  requestFor (Some (target None (Some "a/b") false true))
    "alice" "internal" "10.0.0.5".

(** *** Recognising the traffic of Xray itself, in the words of the specification *)

(** The upper-case form of a lower-case letter. *)
Definition upperChar (c : ascii) : ascii := ascii_of_nat (nat_of_ascii c - 32).

(** [s] spells the lower-case [word], each letter in either case. *)
Fixpoint spelledAnyCase (word s : string) : Prop :=
  match word, s with
  | EmptyString, EmptyString => True
  | String a word', String b s' =>
      (b = a \/ b = upperChar a) /\ spelledAnyCase word' s'
  | _, _ => False
  end.

(** [s] contains the substring xray in any case. *)
Definition ContainsXray (s : string) : Prop :=
  exists pre mid post, s = pre ++ mid ++ post /\ spelledAnyCase "xray" mid.

(** The client address is 127.0.0.1, ::1, localhost, or starts with 127. *)
Definition Loopback (address : string) : Prop :=
  address = "127.0.0.1" \/ address = "::1" \/ address = "localhost"
  \/ exists rest, address = "127." ++ rest.

(** [data.userContext?.id], [data.userContext?.realm] and
    [data.metadata?.clientAddress] *)
Definition originatorId (data : BeforeDownloadRequest.t) : option string :=
  chain (BeforeDownloadRequest.userContext data) UserContext.id.

Definition originatorRealm (data : BeforeDownloadRequest.t) : option string :=
  chain (BeforeDownloadRequest.userContext data) UserContext.realm.

Definition clientAddressOf (data : BeforeDownloadRequest.t) : option string :=
  chain (BeforeDownloadRequest.metadata data) DownloadMetadata.clientAddress.

Definition ScannerSelfTraffic (data : BeforeDownloadRequest.t) : Prop :=
  (exists id, originatorId data = Some id /\ ContainsXray id)
  \/ (exists realm, originatorRealm data = Some realm /\ ContainsXray realm)
  \/ (exists address, clientAddressOf data = Some address /\ Loopback address).

(** ** What a [catch] block can log *)

(** The message of the thrown value can be formed: it is an [Error], or
    [String(error)] yields a string. *)
Definition describable (error : Thrown) : bool :=
  match error with
  | ErrorValue _ _ _ => true
  | OtherValue (Yields _) _ _ => true
  | OtherValue (Raises _) _ _ => false
  end.

(** The data of the thrown value's [response] is falsy, or [JSON.stringify]
    yields for it. *)
Definition serializable (error : Thrown) : bool :=
  match error with
  | ErrorValue _ _ (Some (Raises _)) => false
  | OtherValue _ _ (Some (Raises _)) => false
  | _ => true
  end.

(** The call returned a response, or threw an error whose message can be
    formed: the [catch] blocks of [checkXrayAvailable] and
    [getArtifactScanStatus] then run to their end. *)
Definition caught (s : PlatformHttp.Settled) : bool :=
  match s with
  | PlatformHttp.Resolves _ => true
  | PlatformHttp.Rejects error => describable error
  end.

(** The call returned a response, or threw an error that can be logged, its
    message and the data of its response: the [catch] block of
    [triggerForceReindexArtifact] then runs to its end. *)
Definition logged (s : PlatformHttp.Settled) : bool :=
  match s with
  | PlatformHttp.Resolves _ => true
  | PlatformHttp.Rejects error => describable error && serializable error
  end.

(** The response carries the status code [code]: in [status], or in
    [statusCode] when it has no [status]. *)
Definition carriesStatusCode (response : HttpResponse.t) (code : Z) : Prop :=
  HttpResponse.status response = Some code
  \/ (HttpResponse.status response = None
      /\ HttpResponse.statusCode response = Some code).

(** Thrown values for the examples: [Object.create(null)], which [String]
    cannot convert; an object whose [toString] throws such a value; and an
    HTTP error whose response data is cyclic. *)
Definition bareObject : Thrown :=
  OtherValue (Raises (ErrorObject "Cannot convert object to primitive value"))
    None None.

Definition hostileObject : Thrown :=
  OtherValue (Raises bareObject) None None.

Definition cyclicBodyError : Thrown :=
  ErrorValue "Request failed with status code 500" (Some 500)
    (Some (Raises (ErrorObject "Converting circular structure to JSON"))).

Definition rejects (error : Thrown) : PlatformHttp.Settled :=
  PlatformHttp.Rejects error.

(** ** The three helpers and the outer [catch], each as a function of the
    settled call *)

Definition pingResult (s : PlatformHttp.Settled) : Completion bool :=
  match s with
  | PlatformHttp.Resolves response =>
      Returns (Js.eqStr (Js.get (dataOf response) "status") "pong")
  | PlatformHttp.Rejects error =>
      match errorMessage error with
      | Yields _ => Returns false
      | Raises fault => Throws fault
      end
  end.

Definition statusResult (s : PlatformHttp.Settled) : Completion JsVal :=
  match s with
  | PlatformHttp.Resolves _ => Returns (scanStatusOf s)
  | PlatformHttp.Rejects error =>
      match errorMessage error with
      | Yields _ => Returns JNull
      | Raises fault => Throws fault
      end
  end.

Definition reindexResult (s : PlatformHttp.Settled) : Completion bool :=
  match s with
  | PlatformHttp.Resolves _ => Returns (reindexAccepted s)
  | PlatformHttp.Rejects error =>
      match errorMessage error with
      | Yields _ =>
          match responseBodyText error with
          | Yields _ => Returns false
          | Raises fault => Throws fault
          end
      | Raises fault => Throws fault
      end
  end.

Definition outerCatch (error : Thrown) : Completion BeforeDownloadResponse.t :=
  match errorMessage error with
  | Yields errMsg => Returns (respond DownloadStatus.DOWNLOAD_STOP (faultMessage errMsg))
  | Raises fault => Throws fault
  end.

(** The end of the [try] block once the artifact is found not scanned. *)
Definition remediationResult (s : PlatformHttp.Settled)
  : Completion BeforeDownloadResponse.t :=
  match reindexResult s with
  | Returns triggered =>
      Returns (respond DownloadStatus.DOWNLOAD_STOP
                 (if triggered then reindexTriggeredMessage else manualReindexMessage))
  | Throws error => outerCatch error
  end.

(** A liveness stage that lets its fault escape. *)
Definition brokenProbe : Async unit bool :=
  fun st => (Throws (ErrorObject "socket hang up"), st).

(** Alice's request with other values in the fields the handler does not
    read: request headers, the top-level [repoPath], [originalRepoPath],
    [isToken] and the remaining metadata. *)
Definition aliceRequestVariant : BeforeDownloadRequest.t :=
  {| BeforeDownloadRequest.metadata :=
       Some {| DownloadMetadata.repoPath :=
                 Some {| RepoPath.key := Some "generic-local";
                         RepoPath.path := Some "a/b/lib.jar";
                         RepoPath.id := "another id";
                         RepoPath.isRoot := false;
                         RepoPath.isFolder := false |};
               DownloadMetadata.originalRepoPath := None;
               DownloadMetadata.name := "other.jar";
               DownloadMetadata.headOnly := true;
               DownloadMetadata.checksum := true;
               DownloadMetadata.recursive := true;
               DownloadMetadata.modificationTime := 17;
               DownloadMetadata.directoryRequest := true;
               DownloadMetadata.metadata := true;
               DownloadMetadata.lastModified := 18;
               DownloadMetadata.ifModifiedSince := 19;
               DownloadMetadata.servletContextUrl := "https://elsewhere/";
               DownloadMetadata.uri := "/x";
               DownloadMetadata.clientAddress := Some "10.0.0.5";
               DownloadMetadata.zipResourcePath := "inner";
               DownloadMetadata.zipResourceRequest := true;
               DownloadMetadata.replaceHeadRequestWithGet := true;
               DownloadMetadata.repoType := RepoType.REPO_TYPE_REMOTE |};
     BeforeDownloadRequest.headers := [("Accept", ["*/*"])];
     BeforeDownloadRequest.userContext :=
       Some {| UserContext.id := Some "alice";
               UserContext.isToken := true;
               UserContext.realm := Some "internal" |};
     BeforeDownloadRequest.repoPath :=
       Some (target (Some "other-repo") None true true) |}.

(** * Properties *)

(** ** Strings *)

Lemma toLowerCase_app (a b : string) :
  JsString.toLowerCase (a ++ b) = JsString.toLowerCase a ++ JsString.toLowerCase b.
Proof.
  induction a as [|c a IH]; simpl; [reflexivity|].
  now rewrite IH.
Qed.

Lemma startsWith_app (p rest : string) :
  JsString.startsWith (p ++ rest) p = true.
Proof.
  induction p as [|c p IH]; simpl; [reflexivity|].
  now rewrite Ascii.eqb_refl, IH.
Qed.

Lemma includes_unfold (s needle : string) :
  JsString.includes s needle =
  JsString.startsWith s needle ||
  match s with
  | EmptyString => false
  | String _ s' => JsString.includes s' needle
  end.
Proof. destruct s; reflexivity. Qed.

Lemma includes_app (pre mid post : string) :
  JsString.includes (pre ++ mid ++ post) mid = true.
Proof.
  induction pre as [|c pre IH].
  - change (EmptyString ++ mid ++ post) with (mid ++ post).
    rewrite includes_unfold, startsWith_app. reflexivity.
  - change (String c pre ++ mid ++ post) with (String c (pre ++ mid ++ post)).
    rewrite includes_unfold, IH. apply orb_true_r.
Qed.

(** ** The three stages *)

Section StageFacts.

Context {World : Type}.
Variable context : PlatformHttp.t World.

Lemma checkXrayAvailable_run (st : State World) :
  checkXrayAvailable context st =
  let reply := PlatformHttp.get context XRAY_PING_API (world st) in
  (pingResult (fst reply),
   {| world := snd reply; calls := calls st ++ [GET XRAY_PING_API] |}).
Proof.
  unfold checkXrayAvailable, tryCatch, bind, httpGet, settle, ret, evaluate.
  destruct (PlatformHttp.get context XRAY_PING_API (world st)) as [[response|error] w'];
    simpl; [reflexivity|].
  destruct (errorMessage error); reflexivity.
Qed.

Lemma getArtifactScanStatus_run (repo path : string) (st : State World) :
  getArtifactScanStatus context repo path st =
  let reply :=
    PlatformHttp.post context XRAY_ARTIFACT_STATUS_API (statusBody repo path) (world st) in
  (statusResult (fst reply),
   {| world := snd reply;
      calls := calls st ++ [POST XRAY_ARTIFACT_STATUS_API (statusBody repo path)] |}).
Proof.
  unfold getArtifactScanStatus, tryCatch, bind, httpPost, settle, ret, evaluate.
  destruct (PlatformHttp.post context XRAY_ARTIFACT_STATUS_API _ (world st))
    as [[response|error] w']; simpl.
  - unfold scanStatusOf, overallStatus.
    destruct (Js.truthy _); reflexivity.
  - destruct (errorMessage error); reflexivity.
Qed.

Lemma triggerForceReindexArtifact_run (repo path : string) (st : State World) :
  triggerForceReindexArtifact context repo path st =
  let reply :=
    PlatformHttp.post context XRAY_FORCE_REINDEX_API (reindexBody repo path) (world st) in
  (reindexResult (fst reply),
   {| world := snd reply;
      calls := calls st ++ [POST XRAY_FORCE_REINDEX_API (reindexBody repo path)] |}).
Proof.
  unfold triggerForceReindexArtifact, tryCatch, bind, httpPost, settle, ret, evaluate.
  destruct (PlatformHttp.post context XRAY_FORCE_REINDEX_API _ (world st))
    as [[response|error] w']; simpl.
  - destruct (statusCodeOf response) as [c|]; [|reflexivity].
    destruct (200 <=? c) eqn:Hlo; destruct (c <? 300); reflexivity.
  - destruct (errorMessage error); [|reflexivity].
    destruct (responseBodyText error); reflexivity.
Qed.

Lemma isScanned_verdict (s : PlatformHttp.Settled) :
  isScanned (scanStatusOf s) = true <-> verdictOf s = Scanned.
Proof.
  unfold verdictOf, scanStatusOf.
  destruct (overallStatus s) as [v|]; simpl.
  - unfold isScanned.
    destruct (Js.eqStr v "DONE" || Js.eqStr v "PARTIAL") eqn:E.
    + destruct v; simpl in *; try discriminate; split; reflexivity.
    + rewrite andb_false_r. split; discriminate.
  - split; discriminate.
Qed.

(** The template literal of the scanned message is applied to a string. *)
Lemma isScanned_string (scanStatus : JsVal) :
  isScanned scanStatus = true ->
  scanStatus = JStr "DONE" \/ scanStatus = JStr "PARTIAL".
Proof.
  unfold isScanned. intros H. apply andb_prop in H as [_ H].
  destruct scanStatus; simpl in H; try discriminate.
  apply orb_prop in H as [H|H]; apply String.eqb_eq in H; subst; auto.
Qed.

Lemma pingResult_alive (s : PlatformHttp.Settled) :
  livenessOk s = true -> pingResult s = Returns true.
Proof.
  destruct s as [response|error]; simpl; [now intros -> | discriminate].
Qed.

Lemma pingResult_caught (s : PlatformHttp.Settled) :
  livenessOk s = false -> caught s = true -> pingResult s = Returns false.
Proof.
  destruct s as [response|error]; simpl; [now intros -> |].
  intros _. destruct error as [m st d|[t|e] st d]; simpl; try reflexivity; discriminate.
Qed.

Lemma pingResult_fault (error : Thrown) :
  describable error = false ->
  exists fault,
    errorMessage error = Raises fault
    /\ pingResult (PlatformHttp.Rejects error) = Throws fault.
Proof.
  destruct error as [m st d|[t|e] st d]; simpl; try discriminate.
  intros _. eauto.
Qed.

Lemma statusResult_caught (s : PlatformHttp.Settled) :
  caught s = true -> statusResult s = Returns (scanStatusOf s).
Proof.
  destruct s as [response|error]; simpl; [reflexivity|].
  destruct error as [m st d|[t|e] st d]; simpl; try reflexivity; discriminate.
Qed.

Lemma known_verdict_caught (s : PlatformHttp.Settled) :
  verdictOf s <> Unknown -> caught s = true.
Proof.
  destruct s as [response|error]; [reflexivity|].
  intros H. exfalso. apply H. reflexivity.
Qed.

Lemma reindexResult_logged (s : PlatformHttp.Settled) :
  logged s = true -> reindexResult s = Returns (reindexAccepted s).
Proof.
  destruct s as [response|error]; simpl; [reflexivity|].
  destruct error as [m st [[t|e]|]|[t|e] st [[t'|e']|]]; simpl;
    try reflexivity; discriminate.
Qed.

(** The outer [catch] stops the download or lets the fault escape; it never
    lets the download through. *)
Lemma outerCatch_status (error : Thrown) (st : State World) :
  statusOf (outerCatch error, st) = Some DownloadStatus.DOWNLOAD_STOP
  \/ statusOf (outerCatch error, st) = None.
Proof.
  unfold outerCatch, statusOf. destruct (errorMessage error); simpl; auto.
Qed.

Lemma remediationResult_status (s : PlatformHttp.Settled) (st : State World) :
  statusOf (remediationResult s, st) = Some DownloadStatus.DOWNLOAD_STOP
  \/ statusOf (remediationResult s, st) = None.
Proof.
  unfold remediationResult. destruct (reindexResult s); [left; reflexivity|].
  apply outerCatch_status.
Qed.

End StageFacts.

(** ** The handler as a whole *)

Section HandlerFacts.

Context {World : Type}.
Variable context : PlatformHttp.t World.

Lemma falsy_false_some (s : option string) :
  falsy s = false -> exists t, s = Some t /\ t <> EmptyString.
Proof.
  destruct s as [[|c t]|]; simpl; try discriminate.
  intros _. eexists; split; [reflexivity | discriminate].
Qed.

Lemma applicable_true (data : BeforeDownloadRequest.t) :
  applicable data = true ->
  falsy (repoKeyOf data) || falsy (artifactPathOf data) = false
  /\ isFolderOrRoot data = false
  /\ isXrayIndexingRequest data = false.
Proof.
  unfold applicable. intros H.
  apply andb_prop in H as [H Hx]. apply andb_prop in H as [Hk Hf].
  repeat split; now apply negb_true_iff.
Qed.

Lemma applicable_target (data : BeforeDownloadRequest.t) :
  applicable data = true ->
  exists repo path, repoKeyOf data = Some repo /\ artifactPathOf data = Some path.
Proof.
  intros H. apply applicable_true in H as [H _].
  apply orb_false_elim in H as [Hk Hp].
  apply falsy_false_some in Hk as [repo [Hk _]].
  apply falsy_false_some in Hp as [path [Hp _]].
  eauto.
Qed.

(** A request the classifier turns away never reaches the scanning service. *)
Lemma not_applicable_untouched (data : BeforeDownloadRequest.t) (w : World) :
  applicable data = false ->
  snd (run (rescanWorker context data) w) = {| world := w; calls := [] |}.
Proof.
  unfold applicable, run, rescanWorker, rescanWorkerWith. intros H.
  destruct (falsy (repoKeyOf data) || falsy (artifactPathOf data)); [reflexivity|].
  destruct (isFolderOrRoot data); [reflexivity|].
  destruct (isXrayIndexingRequest data); [reflexivity|].
  discriminate.
Qed.

(** Past the classifier the handler is its guarded [try] block. *)
Lemma applicable_enters_try
  (checkAvailable : Async World bool)
  (getScanStatus : string -> string -> Async World JsVal)
  (triggerReindex : string -> string -> Async World bool)
  (data : BeforeDownloadRequest.t) (repo path : string) (st : State World) :
  repoKeyOf data = Some repo ->
  artifactPathOf data = Some path ->
  applicable data = true ->
  rescanWorkerWith checkAvailable getScanStatus triggerReindex data st =
  match resolveAndRemediate checkAvailable getScanStatus triggerReindex repo path st with
  | (Returns response, st') => (Returns response, st')
  | (Throws error, st') => (outerCatch error, st')
  end.
Proof.
  intros Hk Hp H. apply applicable_true in H as (Hm & Hf & Hx).
  unfold rescanWorkerWith. rewrite Hm, Hf, Hx, Hk, Hp. cbn [orElse].
  unfold tryCatch, bind, evaluate, ret, outerCatch.
  destruct (resolveAndRemediate _ _ _ repo path st) as [[response|error] st'];
    [reflexivity|].
  destruct (errorMessage error); reflexivity.
Qed.

(** The whole run of the handler on an applicable request, as a function of
    the three replies of the scanning service. *)
Lemma applicable_run (data : BeforeDownloadRequest.t) (repo path : string) (w : World) :
  repoKeyOf data = Some repo ->
  artifactPathOf data = Some path ->
  applicable data = true ->
  run (rescanWorker context data) w =
  let ping := pingReply context w in
  let status := statusReply context repo path w in
  let reindex := reindexReply context repo path w in
  let afterPing := {| world := snd ping; calls := [GET XRAY_PING_API] |} in
  let afterStatus :=
    {| world := snd status;
       calls := [GET XRAY_PING_API;
                 POST XRAY_ARTIFACT_STATUS_API (statusBody repo path)] |} in
  let afterReindex :=
    {| world := snd reindex;
       calls := [GET XRAY_PING_API;
                 POST XRAY_ARTIFACT_STATUS_API (statusBody repo path);
                 POST XRAY_FORCE_REINDEX_API (reindexBody repo path)] |} in
  match pingResult (fst ping) with
  | Throws error => (outerCatch error, afterPing)
  | Returns false =>
      (Returns (respond DownloadStatus.DOWNLOAD_WARN warningMessage), afterPing)
  | Returns true =>
      match statusResult (fst status) with
      | Throws error => (outerCatch error, afterStatus)
      | Returns scanStatus =>
          if isScanned scanStatus then
            (Returns (respond DownloadStatus.DOWNLOAD_PROCEED
                        (scannedMessage (Js.text scanStatus))),
             afterStatus)
          else (remediationResult (fst reindex), afterReindex)
      end
  end.
Proof.
  intros Hk Hp H. unfold run, rescanWorker.
  rewrite (applicable_enters_try _ _ _ _ _ Hk Hp H).
  unfold resolveAndRemediate, bind.
  rewrite checkXrayAvailable_run. cbn zeta. cbn [world calls app].
  fold (pingReply context w).
  destruct (pingResult (fst (pingReply context w))) as [[|]|error];
    cbn [negb]; [|reflexivity|reflexivity].
  rewrite getArtifactScanStatus_run. cbn zeta. cbn [world calls app].
  fold (statusReply context repo path w).
  destruct (statusResult (fst (statusReply context repo path w)))
    as [scanStatus|error]; [|reflexivity].
  destruct (isScanned scanStatus); [reflexivity|].
  rewrite triggerForceReindexArtifact_run. cbn zeta. cbn [world calls app].
  fold (reindexReply context repo path w).
  unfold remediationResult.
  destruct (reindexResult (fst (reindexReply context repo path w)))
    as [[|]|error]; reflexivity.
Qed.

End HandlerFacts.
(** ** The classifier: missing identity, folders and roots, Xray's own traffic *)

(** C8. A request whose repository key or artifact path is absent is stopped
    with the cannot-validate message, whatever its other fields are, and the
    scanning service is not called: the call log stays empty and the world is
    untouched. *)
Theorem missing_identity_stops {World : Type} (context : PlatformHttp.t World)
  (data : BeforeDownloadRequest.t) (w : World) :
  repoKeyOf data = None \/ artifactPathOf data = None ->
  run (rescanWorker context data) w =
  (Returns (respond DownloadStatus.DOWNLOAD_STOP cannotValidateMessage),
   {| world := w; calls := [] |}).
Proof.
  intros H. unfold run, rescanWorker, rescanWorkerWith.
  assert (E : falsy (repoKeyOf data) || falsy (artifactPathOf data) = true).
  { destruct H as [H|H]; rewrite H; simpl; [reflexivity | apply orb_true_r]. }
  rewrite E. reflexivity.
Qed.

Lemma missing_identity_stops_witness :
  run (rescanWorker (scriptedXray pong (overall "DONE") (answers 200))
         (requestFor (Some (target None (Some "a/b/lib.jar") false false))
            "alice" "internal" "10.0.0.5")) tt =
  (Returns (respond DownloadStatus.DOWNLOAD_STOP cannotValidateMessage),
   {| world := tt; calls := [] |}).
Proof.
  apply missing_identity_stops. left. reflexivity.
Defined.

(** C10. A repository key or artifact path that is present but empty is
    handled like an absent one: Stop with the cannot-validate message and no
    call to the scanning service, also for a folder or a root. *)
Theorem empty_identity_stops {World : Type} (context : PlatformHttp.t World)
  (data : BeforeDownloadRequest.t) (w : World) :
  repoKeyOf data = Some EmptyString \/ artifactPathOf data = Some EmptyString ->
  run (rescanWorker context data) w =
  (Returns (respond DownloadStatus.DOWNLOAD_STOP cannotValidateMessage),
   {| world := w; calls := [] |}).
Proof.
  intros H. unfold run, rescanWorker, rescanWorkerWith.
  assert (E : falsy (repoKeyOf data) || falsy (artifactPathOf data) = true).
  { destruct H as [H|H]; rewrite H; simpl; [reflexivity | apply orb_true_r]. }
  rewrite E. reflexivity.
Qed.

Lemma empty_identity_stops_witness :
  isFolderOrRoot rootRequest = true /\
  run (rescanWorker (scriptedXray pong (overall "DONE") (answers 200)) rootRequest) tt =
  (Returns (respond DownloadStatus.DOWNLOAD_STOP cannotValidateMessage),
   {| world := tt; calls := [] |}).
Proof.
  split; [reflexivity|].
  apply empty_identity_stops. right. reflexivity.
Defined.

(** C4 as stated fails: a folder whose repository key is missing is stopped,
    not let through. *)
Lemma folder_or_root_counterexample :
  ~ (forall (World : Type) (context : PlatformHttp.t World)
       (data : BeforeDownloadRequest.t) (rp : RepoPath.t) (w : World),
        targetRepoPath data = Some rp ->
        RepoPath.isFolder rp = true \/ RepoPath.isRoot rp = true ->
        statusOf (run (rescanWorker context data) w)
        = Some DownloadStatus.DOWNLOAD_PROCEED
        /\ callsOf (run (rescanWorker context data) w) = []).
Proof.
  intros claim.
  destruct (claim unit (scriptedXray pong (overall "DONE") (answers 200))
              folderWithoutKey (target None (Some "a/b") false true) tt
              eq_refl (or_introl eq_refl)) as [Hstatus _].
  vm_compute in Hstatus. discriminate.
Qed.

(** C4, amended. A request whose repository key and path are present and
    non-empty and whose target is a folder or a root proceeds with the
    skipping message, whatever its other fields are, and none of the
    liveness, status or reindex calls is made. *)
Theorem folder_or_root_proceeds {World : Type} (context : PlatformHttp.t World)
  (data : BeforeDownloadRequest.t) (rp : RepoPath.t) (w : World) :
  falsy (repoKeyOf data) = false ->
  falsy (artifactPathOf data) = false ->
  targetRepoPath data = Some rp ->
  RepoPath.isFolder rp = true \/ RepoPath.isRoot rp = true ->
  run (rescanWorker context data) w =
  (Returns (respond DownloadStatus.DOWNLOAD_PROCEED
              "Skipping folder/root - scan check only applies to artifacts."),
   {| world := w; calls := [] |}).
Proof.
  intros Hk Hp Hrp Hflag. unfold run, rescanWorker, rescanWorkerWith.
  rewrite Hk, Hp. cbn [orb].
  assert (E : isFolderOrRoot data = true).
  { unfold isFolderOrRoot. rewrite Hrp.
    destruct Hflag as [H|H]; rewrite H; [reflexivity | apply orb_true_r]. }
  rewrite E. reflexivity.
Qed.

Lemma folder_or_root_proceeds_witness :
  run (rescanWorker (scriptedXray pong (overall "NOT_SCANNED") (answers 200))
         (requestFor (Some (target (Some "generic-local") (Some "a/b") false true))
            "alice" "internal" "10.0.0.5")) tt =
  (Returns (respond DownloadStatus.DOWNLOAD_PROCEED
              "Skipping folder/root - scan check only applies to artifacts."),
   {| world := tt; calls := [] |}).
Proof.
  apply (@folder_or_root_proceeds unit _ _
           (target (Some "generic-local") (Some "a/b") false true));
    [reflexivity | reflexivity | reflexivity | left; reflexivity].
Defined.

(** *** Xray's own traffic *)

Lemma spelled_xray_lower (mid : string) :
  spelledAnyCase "xray" mid -> JsString.toLowerCase mid = "xray".
Proof.
  destruct mid as [|c1 [|c2 [|c3 [|c4 [|c5 rest]]]]]; simpl; try tauto.
  intros ([-> | ->] & [-> | ->] & [-> | ->] & [-> | ->] & _); reflexivity.
Qed.

Lemma containsXray_includes (s : string) :
  ContainsXray s -> JsString.includes (JsString.toLowerCase s) "xray" = true.
Proof.
  intros (pre & mid & post & -> & Hmid).
  rewrite !toLowerCase_app, (spelled_xray_lower _ Hmid).
  apply includes_app.
Qed.

Lemma loopback_recognised (address : string) :
  Loopback address ->
  let clientAddr := JsString.toLowerCase address in
  String.eqb clientAddr "127.0.0.1" || String.eqb clientAddr "::1"
  || String.eqb clientAddr "localhost" || JsString.startsWith clientAddr "127." = true.
Proof.
  intros [-> | [-> | [-> | [rest ->]]]]; try reflexivity.
  cbn zeta. rewrite toLowerCase_app.
  change (JsString.toLowerCase "127.") with "127.".
  rewrite startsWith_app. apply orb_true_r.
Qed.

Lemma scannerSelfTraffic_recognised (data : BeforeDownloadRequest.t) :
  ScannerSelfTraffic data -> isXrayIndexingRequest data = true.
Proof.
  unfold isXrayIndexingRequest, ScannerSelfTraffic, originatorId,
    originatorRealm, clientAddressOf.
  intros [(id & -> & Hid) | [(realm & -> & Hrealm) | (address & -> & Haddr)]];
    cbn [option_map orElse].
  - now rewrite (containsXray_includes Hid).
  - rewrite (containsXray_includes Hrealm).
    now destruct (JsString.includes _ "xray").
  - rewrite (loopback_recognised Haddr).
    repeat match goal with
           | |- context [JsString.includes ?s "xray"] =>
               destruct (JsString.includes s "xray")
           end; reflexivity.
Qed.

(** C7. A request with a non-empty repository key and path, not a folder or a
    root, whose originator identity or realm contains xray in any case, or
    whose client address is 127.0.0.1, ::1, localhost or starts with 127.,
    proceeds, and none of the liveness, status or reindex calls is made. *)
Theorem scanner_self_traffic_proceeds {World : Type} (context : PlatformHttp.t World)
  (data : BeforeDownloadRequest.t) (w : World) :
  falsy (repoKeyOf data) = false ->
  falsy (artifactPathOf data) = false ->
  isFolderOrRoot data = false ->
  ScannerSelfTraffic data ->
  run (rescanWorker context data) w =
  (Returns (respond DownloadStatus.DOWNLOAD_PROCEED "Allowing Xray indexing request."),
   {| world := w; calls := [] |}).
Proof.
  intros Hk Hp Hf Hx. unfold run, rescanWorker, rescanWorkerWith.
  rewrite Hk, Hp, Hf, (scannerSelfTraffic_recognised Hx). reflexivity.
Qed.

Lemma scanner_self_traffic_proceeds_witness :
  run (rescanWorker (scriptedXray pong (overall "NOT_SCANNED") (answers 200))
         (requestFor (Some (target (Some "generic-local") (Some "a/b/lib.jar") false false))
            "svc-XrAy-indexer" "internal" "10.0.0.5")) tt =
  (Returns (respond DownloadStatus.DOWNLOAD_PROCEED "Allowing Xray indexing request."),
   {| world := tt; calls := [] |}).
Proof.
  apply scanner_self_traffic_proceeds; try reflexivity.
  left. exists "svc-XrAy-indexer". split; [reflexivity|].
  exists "svc-", "XrAy", "-indexer". split; [reflexivity|].
  simpl. repeat split; auto.
Defined.

(** ** The resolver and the remediation trigger *)

Lemma eqStr_true (v : JsVal) (s : string) :
  Js.eqStr v s = true <-> v = JStr s.
Proof.
  destruct v; simpl; try (split; discriminate).
  rewrite String.eqb_eq. split; [now intros -> | now intros [= ->]].
Qed.

(** [livenessOk] holds exactly when the probe resolves with the pong body;
    it fails when the probe throws or resolves with anything else. *)
Lemma livenessOk_true (s : PlatformHttp.Settled) :
  livenessOk s = true <->
  exists response,
    s = PlatformHttp.Resolves response
    /\ Js.get (dataOf response) "status" = JStr "pong".
Proof.
  destruct s as [response|error]; simpl.
  - rewrite eqStr_true. split; [eauto | now intros (r & [= <-] & H)].
  - split; [discriminate | now intros (r & [=] & _)].
Qed.

Section ResolverFacts.

Context {World : Type}.
Variable context : PlatformHttp.t World.
Variable data : BeforeDownloadRequest.t.
Variables repo path : string.
Variable w : World.

Hypothesis repoKey_present : repoKeyOf data = Some repo.
Hypothesis artifactPath_present : artifactPathOf data = Some path.

(** When the artifact is not confirmed scanned the handler triggers the
    reindex. *)
Lemma remediation_run :
  applicable data = true ->
  livenessOk (fst (pingReply context w)) = true ->
  verdictOf (fst (statusReply context repo path w)) <> Scanned ->
  caught (fst (statusReply context repo path w)) = true ->
  run (rescanWorker context data) w =
  (remediationResult (fst (reindexReply context repo path w)),
   {| world := snd (reindexReply context repo path w);
      calls := [GET XRAY_PING_API;
                POST XRAY_ARTIFACT_STATUS_API (statusBody repo path);
                POST XRAY_FORCE_REINDEX_API (reindexBody repo path)] |}).
Proof.
  intros Happ Hlive Hverdict Hcaught.
  rewrite (applicable_run context _ w repoKey_present artifactPath_present Happ).
  cbn zeta. rewrite (pingResult_alive _ Hlive), (statusResult_caught _ Hcaught).
  destruct (isScanned (scanStatusOf (fst (statusReply context repo path w)))) eqn:E;
    [|reflexivity].
  apply isScanned_verdict in E. contradiction.
Qed.

(** With a reindex call that returns or can be logged, the download is
    stopped with one of the two remediation messages. *)
Lemma remediation_stops :
  applicable data = true ->
  livenessOk (fst (pingReply context w)) = true ->
  verdictOf (fst (statusReply context repo path w)) <> Scanned ->
  caught (fst (statusReply context repo path w)) = true ->
  logged (fst (reindexReply context repo path w)) = true ->
  fst (run (rescanWorker context data) w) =
  Returns (respond DownloadStatus.DOWNLOAD_STOP
             (if reindexAccepted (fst (reindexReply context repo path w))
              then reindexTriggeredMessage else manualReindexMessage)).
Proof.
  intros Happ Hlive Hverdict Hcaught Hlogged.
  rewrite (remediation_run Happ Hlive Hverdict Hcaught).
  unfold remediationResult. rewrite (reindexResult_logged _ Hlogged). reflexivity.
Qed.

Lemma pingResult_not_alive :
  livenessOk (fst (pingReply context w)) = false ->
  pingResult (fst (pingReply context w)) = Returns false
  \/ exists fault, pingResult (fst (pingReply context w)) = Throws fault.
Proof.
  destruct (fst (pingReply context w)) as [response|error]; simpl.
  - intros ->. auto.
  - intros _. destruct (errorMessage error); eauto.
Qed.

Lemma statusResult_fault :
  caught (fst (statusReply context repo path w)) = false ->
  exists fault, statusResult (fst (statusReply context repo path w)) = Throws fault.
Proof.
  destruct (fst (statusReply context repo path w)) as [response|error]; simpl;
    [discriminate|].
  destruct error as [m st d|[t|e] st d]; simpl; try discriminate. eauto.
Qed.

(** The reindex endpoint is reached only on that path. *)
Lemma reindex_invoked :
  reindexCalls (callsOf (run (rescanWorker context data) w)) <> [] ->
  applicable data = true
  /\ livenessOk (fst (pingReply context w)) = true
  /\ verdictOf (fst (statusReply context repo path w)) <> Scanned
  /\ caught (fst (statusReply context repo path w)) = true.
Proof.
  intros Hcalls.
  destruct (applicable data) eqn:Happ.
  - rewrite (applicable_run context _ w repoKey_present artifactPath_present Happ)
      in Hcalls.
    cbn zeta in Hcalls.
    destruct (livenessOk (fst (pingReply context w))) eqn:Hlive.
    + rewrite (pingResult_alive _ Hlive) in Hcalls.
      destruct (caught (fst (statusReply context repo path w))) eqn:Hcaught.
      * rewrite (statusResult_caught _ Hcaught) in Hcalls.
        destruct (isScanned (scanStatusOf (fst (statusReply context repo path w))))
          eqn:E; [exfalso; apply Hcalls; reflexivity|].
        repeat split. intros Hv. apply isScanned_verdict in Hv. congruence.
      * destruct (statusResult_fault Hcaught) as [fault Hfault].
        rewrite Hfault in Hcalls. exfalso. apply Hcalls. reflexivity.
    + destruct (pingResult_not_alive Hlive) as [E | [fault E]];
        rewrite E in Hcalls; exfalso; apply Hcalls; reflexivity.
  - exfalso. apply Hcalls. unfold callsOf.
    rewrite (not_applicable_untouched context _ w Happ). reflexivity.
Qed.

End ResolverFacts.

(** C6. The claim fails on the code when the liveness probe throws a value
    that [String] cannot convert, such as [Object.create(null)]: the [catch]
    block of [checkXrayAvailable] throws while it builds its log line, the
    outer [catch] takes over, and the download is stopped, not let through
    with a warning. The ping stays the only call. *)
Theorem liveness_fault_stops {World : Type} (context : PlatformHttp.t World)
  (data : BeforeDownloadRequest.t) (w : World)
  (message : string) (status status' : option Z) (body body' : option Conversion) :
  applicable data = true ->
  fst (pingReply context w)
  = PlatformHttp.Rejects
      (OtherValue (Raises (ErrorValue message status' body')) status body) ->
  run (rescanWorker context data) w =
  (Returns (respond DownloadStatus.DOWNLOAD_STOP
              ("Error during scan validation: " ++ message ++ ". Please try again.")),
   {| world := snd (pingReply context w); calls := [GET XRAY_PING_API] |}).
Proof.
  intros Happ Hping.
  destruct (applicable_target _ Happ) as (repo & path & Hk & Hp).
  rewrite (applicable_run context _ w Hk Hp Happ). cbn zeta.
  rewrite Hping. reflexivity.
Qed.

Lemma liveness_fault_stops_witness :
  run (rescanWorker (scriptedXray (rejects bareObject) (overall "DONE") (answers 200))
         aliceRequest) tt =
  (Returns (respond DownloadStatus.DOWNLOAD_STOP
              "Error during scan validation: Cannot convert object to primitive value. Please try again."),
   {| world := tt; calls := [GET XRAY_PING_API] |}).
Proof.
  apply (@liveness_fault_stops unit
           (scriptedXray (rejects bareObject) (overall "DONE") (answers 200))
           aliceRequest tt "Cannot convert object to primitive value"
           None None None None); reflexivity.
Defined.

(** C9. On an applicable request, when the liveness probe succeeds and the
    status query returns the overall status DONE, or PARTIAL, the handler
    proceeds; the calls made are the ping and the status query, and the
    reindex endpoint is not called. *)
Theorem scanned_proceeds {World : Type} (context : PlatformHttp.t World)
  (data : BeforeDownloadRequest.t) (repo path scanStatus : string) (w : World) :
  repoKeyOf data = Some repo ->
  artifactPathOf data = Some path ->
  applicable data = true ->
  livenessOk (fst (pingReply context w)) = true ->
  overallStatus (fst (statusReply context repo path w)) = Some (JStr scanStatus) ->
  scanStatus = "DONE" \/ scanStatus = "PARTIAL" ->
  run (rescanWorker context data) w =
  (Returns (respond DownloadStatus.DOWNLOAD_PROCEED (scannedMessage scanStatus)),
   {| world := snd (statusReply context repo path w);
      calls := [GET XRAY_PING_API;
                POST XRAY_ARTIFACT_STATUS_API
                  (JObj [("repo", JStr repo); ("path", JStr path)])] |})
  /\ reindexCalls (callsOf (run (rescanWorker context data) w)) = [].
Proof.
  intros Hk Hp Happ Hlive Hstatus Hdone.
  assert (E : run (rescanWorker context data) w =
              (Returns (respond DownloadStatus.DOWNLOAD_PROCEED (scannedMessage scanStatus)),
               {| world := snd (statusReply context repo path w);
                  calls := [GET XRAY_PING_API;
                            POST XRAY_ARTIFACT_STATUS_API (statusBody repo path)] |})).
  { rewrite (applicable_run context _ w Hk Hp Happ). cbn zeta.
    rewrite (pingResult_alive _ Hlive).
    assert (Hcaught : caught (fst (statusReply context repo path w)) = true).
    { apply known_verdict_caught. unfold verdictOf. rewrite Hstatus.
      destruct Hdone as [-> | ->]; discriminate. }
    rewrite (statusResult_caught _ Hcaught). unfold scanStatusOf. rewrite Hstatus.
    destruct Hdone as [-> | ->]; reflexivity. }
  rewrite E. split; reflexivity.
Qed.

Lemma scanned_proceeds_witness :
  run (rescanWorker (scriptedXray pong (overall "PARTIAL") (answers 200)) aliceRequest) tt =
  (Returns (respond DownloadStatus.DOWNLOAD_PROCEED
              "Artifact is scanned (status: PARTIAL). Proceeding with download."),
   {| world := tt;
      calls := [GET XRAY_PING_API;
                POST XRAY_ARTIFACT_STATUS_API
                  (JObj [("repo", JStr "generic-local"); ("path", JStr "a/b/lib.jar")])] |})
  /\ reindexCalls
       (callsOf (run (rescanWorker (scriptedXray pong (overall "PARTIAL") (answers 200))
                        aliceRequest) tt)) = [].
Proof.
  apply (@scanned_proceeds unit
           (scriptedXray pong (overall "PARTIAL") (answers 200))
           aliceRequest "generic-local" "a/b/lib.jar" "PARTIAL" tt);
    try reflexivity.
  right. reflexivity.
Defined.

(** C1 as stated fails: with Xray alive and the status query throwing, the
    download is stopped but the reindex endpoint is invoked. *)
Lemma unknown_verdict_counterexample :
  ~ (forall (World : Type) (context : PlatformHttp.t World)
       (data : BeforeDownloadRequest.t) (repo path : string) (w : World),
        repoKeyOf data = Some repo ->
        artifactPathOf data = Some path ->
        applicable data = true ->
        livenessOk (fst (pingReply context w)) = true ->
        verdictOf (fst (statusReply context repo path w)) = Unknown ->
        statusOf (run (rescanWorker context data) w)
        = Some DownloadStatus.DOWNLOAD_STOP
        /\ reindexCalls (callsOf (run (rescanWorker context data) w)) = []).
Proof.
  intros claim.
  destruct (claim unit (scriptedXray pong (fails "status failed") (answers 200))
              aliceRequest "generic-local" "a/b/lib.jar" tt
              eq_refl eq_refl eq_refl eq_refl eq_refl) as [_ Hcalls].
  vm_compute in Hcalls. discriminate.
Qed.

(** C1, amended. On an applicable request, when the liveness probe succeeds
    and the status query returns a payload without an overall status, or
    throws an error whose message can be formed (verdict Unknown), the
    reindex endpoint is invoked exactly once, for the requested artifact: an
    unknown status is remediated like an unscanned one. The disposition is
    Stop when that reindex call returns a response or throws an error that
    can be logged. *)
Theorem unknown_verdict_stops {World : Type} (context : PlatformHttp.t World)
  (data : BeforeDownloadRequest.t) (repo path : string) (w : World) :
  repoKeyOf data = Some repo ->
  artifactPathOf data = Some path ->
  applicable data = true ->
  livenessOk (fst (pingReply context w)) = true ->
  verdictOf (fst (statusReply context repo path w)) = Unknown ->
  caught (fst (statusReply context repo path w)) = true ->
  reindexCalls (callsOf (run (rescanWorker context data) w))
  = [POST XRAY_FORCE_REINDEX_API
       (JObj [("artifacts",
               JArr [JObj [("repository", JStr repo); ("path", JStr path)]])])]
  /\ (logged (fst (reindexReply context repo path w)) = true ->
      statusOf (run (rescanWorker context data) w)
      = Some DownloadStatus.DOWNLOAD_STOP).
Proof.
  intros Hk Hp Happ Hlive Hverdict Hcaught.
  assert (Hns : verdictOf (fst (statusReply context repo path w)) <> Scanned)
    by (rewrite Hverdict; discriminate).
  split.
  - rewrite (@remediation_run _ context data repo path w Hk Hp Happ Hlive Hns Hcaught).
    reflexivity.
  - intros Hlogged. unfold statusOf.
    rewrite (@remediation_stops _ context data repo path w Hk Hp Happ Hlive Hns
               Hcaught Hlogged).
    reflexivity.
Qed.

Lemma unknown_verdict_stops_witness :
  reindexCalls
    (callsOf (run (rescanWorker (scriptedXray pong (fails "status failed") (answers 200))
                     aliceRequest) tt))
  = [POST XRAY_FORCE_REINDEX_API
       (JObj [("artifacts",
               JArr [JObj [("repository", JStr "generic-local");
                           ("path", JStr "a/b/lib.jar")]])])]
  /\ (logged (fst (reindexReply (scriptedXray pong (fails "status failed") (answers 200))
                     "generic-local" "a/b/lib.jar" tt)) = true ->
      statusOf (run (rescanWorker (scriptedXray pong (fails "status failed") (answers 200))
                       aliceRequest) tt)
      = Some DownloadStatus.DOWNLOAD_STOP).
Proof.
  apply (@unknown_verdict_stops unit
           (scriptedXray pong (fails "status failed") (answers 200))
           aliceRequest "generic-local" "a/b/lib.jar" tt); reflexivity.
Defined.




(** C3 as stated fails: a reindex response with status 500 is not a 2xx
    response, yet the message says that the reindex has been triggered. *)
Lemma reindex_outcome_counterexample :
  ~ (forall (World : Type) (context : PlatformHttp.t World)
       (data : BeforeDownloadRequest.t) (repo path : string) (w : World),
        repoKeyOf data = Some repo ->
        artifactPathOf data = Some path ->
        reindexCalls (callsOf (run (rescanWorker context data) w)) <> [] ->
        (forall response code,
            fst (reindexReply context repo path w)
            = PlatformHttp.Resolves (Some response) ->
            HttpResponse.status response = Some code ->
            200 <= code < 300 ->
            statusOf (run (rescanWorker context data) w)
            = Some DownloadStatus.DOWNLOAD_STOP
            /\ messageOf (run (rescanWorker context data) w)
               = Some reindexTriggeredMessage)
        /\ (threw (fst (reindexReply context repo path w)) = true
            \/ (exists response code,
                   fst (reindexReply context repo path w)
                   = PlatformHttp.Resolves (Some response)
                   /\ HttpResponse.status response = Some code
                   /\ ~ 200 <= code < 300) ->
            statusOf (run (rescanWorker context data) w)
            = Some DownloadStatus.DOWNLOAD_STOP
            /\ messageOf (run (rescanWorker context data) w)
               = Some manualReindexMessage)).
Proof.
  intros claim.
  destruct (claim unit (scriptedXray pong (overall "NOT_SCANNED") (answers 500))
              aliceRequest "generic-local" "a/b/lib.jar" tt eq_refl eq_refl)
    as [_ Hmanual].
  - vm_compute. discriminate.
  - destruct Hmanual as [_ Hmessage].
    + right. eexists _, 500. split; [reflexivity|]. split; [reflexivity | lia].
    + vm_compute in Hmessage. discriminate.
Qed.

(** C3, amended. For every reindex invocation: if the reindex call returns a
    response with a 2xx status code, the disposition is Stop with the message
    that the reindex has been triggered; if the reindex call throws an error
    that can be logged (its message can be formed and the data of its
    response serialised), or returns a response with a status code below 200,
    the disposition is Stop with the message directing the operator to a
    manual reindex. *)
Theorem reindex_outcome_message {World : Type} (context : PlatformHttp.t World)
  (data : BeforeDownloadRequest.t) (repo path : string) (w : World) :
  repoKeyOf data = Some repo ->
  artifactPathOf data = Some path ->
  reindexCalls (callsOf (run (rescanWorker context data) w)) <> [] ->
  (forall response code,
      fst (reindexReply context repo path w) = PlatformHttp.Resolves (Some response) ->
      carriesStatusCode response code ->
      200 <= code < 300 ->
      statusOf (run (rescanWorker context data) w)
      = Some DownloadStatus.DOWNLOAD_STOP
      /\ messageOf (run (rescanWorker context data) w)
         = Some reindexTriggeredMessage)
  /\ ((exists error,
          fst (reindexReply context repo path w) = PlatformHttp.Rejects error
          /\ describable error = true /\ serializable error = true)
      \/ (exists response code,
             fst (reindexReply context repo path w)
             = PlatformHttp.Resolves (Some response)
             /\ carriesStatusCode response code
             /\ code < 200) ->
      statusOf (run (rescanWorker context data) w)
      = Some DownloadStatus.DOWNLOAD_STOP
      /\ messageOf (run (rescanWorker context data) w)
         = Some manualReindexMessage).
Proof.
  intros Hk Hp Hcalls.
  destruct (@reindex_invoked _ context data repo path w Hk Hp Hcalls)
    as (Happ & Hlive & Hverdict & Hcaught).
  pose proof (@remediation_stops _ context data repo path w Hk Hp Happ Hlive
                Hverdict Hcaught) as Hstops.
  unfold statusOf, messageOf.
  split.
  - intros response code Hreply Hcode [Hlo _].
    rewrite Hstops by (rewrite Hreply; reflexivity).
    rewrite Hreply. unfold reindexAccepted, statusCodeOf. cbn [chain].
    apply Z.leb_le in Hlo.
    destruct Hcode as [Hs | [Hs Hsc]]; rewrite Hs; [|rewrite Hsc];
      rewrite Hlo; now split.
  - intros [(error & Hreply & Hd & Hs) | (response & code & Hreply & Hcode & Hlt)].
    + rewrite Hstops by (rewrite Hreply; simpl; rewrite Hd, Hs; reflexivity).
      rewrite Hreply. now split.
    + rewrite Hstops by (rewrite Hreply; reflexivity).
      rewrite Hreply. unfold reindexAccepted, statusCodeOf. cbn [chain].
      assert (E : (200 <=? code) = false) by (apply Z.leb_gt; exact Hlt).
      destruct Hcode as [Hs | [Hs Hsc]]; rewrite Hs; [|rewrite Hsc];
        rewrite E; now split.
Qed.

Lemma reindex_outcome_message_witness :
  statusOf (run (rescanWorker (scriptedXray pong (overall "NOT_SCANNED") (fails "timeout"))
                   aliceRequest) tt)
  = Some DownloadStatus.DOWNLOAD_STOP
  /\ messageOf (run (rescanWorker (scriptedXray pong (overall "NOT_SCANNED") (fails "timeout"))
                       aliceRequest) tt)
     = Some manualReindexMessage.
Proof.
  apply (proj2 (@reindex_outcome_message unit
                  (scriptedXray pong (overall "NOT_SCANNED") (fails "timeout"))
                  aliceRequest "generic-local" "a/b/lib.jar" tt
                  eq_refl eq_refl
                  ltac:(vm_compute; discriminate))).
  left. exists (ErrorObject "timeout"). repeat split.
Defined.

(** What the trigger does with the remaining responses: a status code of 300
    or more, or no status code at all, is reported as triggered. *)
Lemma reindex_lenient {World : Type} (context : PlatformHttp.t World)
  (data : BeforeDownloadRequest.t) (repo path : string) (w : World)
  (response : option HttpResponse.t) :
  repoKeyOf data = Some repo ->
  artifactPathOf data = Some path ->
  reindexCalls (callsOf (run (rescanWorker context data) w)) <> [] ->
  fst (reindexReply context repo path w) = PlatformHttp.Resolves response ->
  (forall code, statusCodeOf response = Some code -> 300 <= code) ->
  messageOf (run (rescanWorker context data) w) = Some reindexTriggeredMessage.
Proof.
  intros Hk Hp Hcalls Hreply Hcode.
  destruct (@reindex_invoked _ context data repo path w Hk Hp Hcalls)
    as (Happ & Hlive & Hverdict & Hcaught).
  unfold messageOf.
  rewrite (@remediation_stops _ context data repo path w Hk Hp Happ Hlive
             Hverdict Hcaught) by (rewrite Hreply; reflexivity).
  rewrite Hreply. unfold reindexAccepted.
  destruct (statusCodeOf response) as [code|]; [|reflexivity].
  assert (E : (200 <=? code) = true)
    by (apply Z.leb_le; specialize (Hcode code eq_refl); lia).
  now rewrite E.
Qed.

(** ** The outermost [try] / [catch] *)

Section Faults.

Context {World : Type}.
Variable checkAvailable : Async World bool.
Variable getScanStatus : string -> string -> Async World JsVal.
Variable triggerReindex : string -> string -> Async World bool.

(** A fault of any of the three stages, at the point where the handler runs
    that stage, is a fault of the [try] block. *)
Lemma liveness_fault (repo path : string) (st st' : State World) (error : Thrown) :
  checkAvailable st = (Throws error, st') ->
  resolveAndRemediate checkAvailable getScanStatus triggerReindex repo path st
  = (Throws error, st').
Proof.
  intros H. unfold resolveAndRemediate, bind. now rewrite H.
Qed.

Lemma status_fault (repo path : string) (st st1 st' : State World) (error : Thrown) :
  checkAvailable st = (Returns true, st1) ->
  getScanStatus repo path st1 = (Throws error, st') ->
  resolveAndRemediate checkAvailable getScanStatus triggerReindex repo path st
  = (Throws error, st').
Proof.
  intros H1 H2. unfold resolveAndRemediate, bind.
  rewrite H1. cbn [negb]. now rewrite H2.
Qed.

Lemma reindex_fault (repo path : string) (st st1 st2 st' : State World)
  (scanStatus : JsVal) (error : Thrown) :
  checkAvailable st = (Returns true, st1) ->
  getScanStatus repo path st1 = (Returns scanStatus, st2) ->
  isScanned scanStatus = false ->
  triggerReindex repo path st2 = (Throws error, st') ->
  resolveAndRemediate checkAvailable getScanStatus triggerReindex repo path st
  = (Throws error, st').
Proof.
  intros H1 H2 H3 H4. unfold resolveAndRemediate, bind.
  rewrite H1. cbn [negb]. now rewrite H2, H3, H4.
Qed.

End Faults.

Lemma faultMessage_includes (errMsg : string) :
  JsString.includes (faultMessage errMsg) errMsg = true.
Proof.
  unfold faultMessage. apply includes_app.
Qed.

(** C5. The claim fails on the code: the outer [catch] evaluates
    [String(error)] outside any [try], so a fault that [String] cannot
    convert escapes the handler. Here the liveness probe throws an object
    whose [toString] throws a second value that [String] cannot convert
    either: [checkXrayAvailable] throws the second value while it builds its
    log line, and the outer [catch] throws the fault of converting it. The
    handler returns no disposition. *)
Theorem fault_escapes {World : Type} (context : PlatformHttp.t World)
  (data : BeforeDownloadRequest.t) (w : World) (fault : Thrown)
  (status status' : option Z) (body body' : option Conversion) :
  applicable data = true ->
  fst (pingReply context w)
  = PlatformHttp.Rejects
      (OtherValue (Raises (OtherValue (Raises fault) status' body')) status body) ->
  run (rescanWorker context data) w =
  (Throws fault,
   {| world := snd (pingReply context w); calls := [GET XRAY_PING_API] |}).
Proof.
  intros Happ Hping.
  destruct (applicable_target _ Happ) as (repo & path & Hk & Hp).
  rewrite (applicable_run context _ w Hk Hp Happ). cbn zeta.
  rewrite Hping. reflexivity.
Qed.

Lemma fault_escapes_witness :
  run (rescanWorker (scriptedXray (rejects hostileObject) (overall "DONE") (answers 200))
         aliceRequest) tt =
  (Throws (ErrorObject "Cannot convert object to primitive value"),
   {| world := tt; calls := [GET XRAY_PING_API] |}).
Proof.
  apply (@fault_escapes unit
           (scriptedXray (rejects hostileObject) (overall "DONE") (answers 200))
           aliceRequest tt (ErrorObject "Cannot convert object to primitive value")
           None None None None); reflexivity.
Defined.

(** ** The two end-to-end examples of the specification *)

Example alice_scanned :
  run (rescanWorker (scriptedXray pong (overall "DONE") (answers 200)) aliceRequest) tt =
  (Returns (respond DownloadStatus.DOWNLOAD_PROCEED
              "Artifact is scanned (status: DONE). Proceeding with download."),
   {| world := tt;
      calls := [GET "/xray/api/v1/system/ping";
                POST "/xray/api/v1/artifact/status"
                  (JObj [("repo", JStr "generic-local"); ("path", JStr "a/b/lib.jar")])] |}).
Proof. reflexivity. Qed.

Example alice_not_scanned :
  run (rescanWorker (scriptedXray pong (overall "NOT_SCANNED") (answers 200)) aliceRequest) tt =
  (Returns (respond DownloadStatus.DOWNLOAD_STOP
              "Artifact is not scanned. Reindex has been triggered for this artifact. Please try again shortly once the reindex completes."),
   {| world := tt;
      calls := [GET "/xray/api/v1/system/ping";
                POST "/xray/api/v1/artifact/status"
                  (JObj [("repo", JStr "generic-local"); ("path", JStr "a/b/lib.jar")]);
                POST "/xray/api/v1/forceReindex"
                  (JObj [("artifacts",
                          JArr [JObj [("repository", JStr "generic-local");
                                      ("path", JStr "a/b/lib.jar")]])])] |}).
Proof. reflexivity. Qed.

(** * Further properties of the handler and its helpers *)

(** ** String matching *)

Lemma startsWith_true (s p : string) :
  JsString.startsWith s p = true -> exists rest, s = p ++ rest.
Proof.
  revert s. induction p as [|a p IH]; intros s H.
  - exists s. reflexivity.
  - destruct s as [|b s]; [discriminate|]. simpl in H.
    apply andb_prop in H as [Hab Hrest].
    apply Ascii.eqb_eq in Hab as ->.
    destruct (IH _ Hrest) as [rest ->]. exists rest. reflexivity.
Qed.

Lemma includes_true (s needle : string) :
  JsString.includes s needle = true ->
  exists pre post, s = pre ++ needle ++ post.
Proof.
  induction s as [|c s IH]; rewrite includes_unfold; intros H;
    apply orb_prop in H as [H|H].
  - destruct (startsWith_true _ _ H) as [rest E].
    exists EmptyString, rest. exact E.
  - discriminate.
  - destruct (startsWith_true _ _ H) as [rest E].
    exists EmptyString, rest. exact E.
  - destruct (IH H) as (pre & post & ->).
    exists (String c pre), post. reflexivity.
Qed.

Lemma toLowerCase_split (s a b : string) :
  JsString.toLowerCase s = a ++ b ->
  exists s1 s2,
    s = s1 ++ s2 /\ JsString.toLowerCase s1 = a /\ JsString.toLowerCase s2 = b.
Proof.
  revert s. induction a as [|c a IH]; intros s H.
  - exists EmptyString, s. repeat split. exact H.
  - destruct s as [|d s]; [discriminate|]. simpl in H.
    injection H as Hc Hrest.
    destruct (IH _ Hrest) as (s1 & s2 & -> & H1 & H2).
    exists (String d s1), s2. repeat split; trivial.
    simpl. now rewrite Hc, H1.
Qed.

Lemma lowerChar_letter (c l : ascii) :
  JsString.isUpper l = false ->
  JsString.lowerChar c = l ->
  c = l \/ (c = upperChar l /\ JsString.isUpper c = true).
Proof.
  intros Hl Hc. unfold JsString.lowerChar in Hc.
  destruct (JsString.isUpper c) eqn:Hup; [right | left; exact Hc].
  split; [|reflexivity]. subst l. unfold upperChar.
  rewrite nat_ascii_embedding.
  - rewrite Nat.add_sub. symmetry. apply ascii_nat_embedding.
  - unfold JsString.isUpper in Hup. apply andb_prop in Hup as [_ Hhi].
    apply Nat.leb_le in Hhi. lia.
Qed.

Lemma lower_xray_spelled (mid : string) :
  JsString.toLowerCase mid = "xray" -> spelledAnyCase "xray" mid.
Proof.
  destruct mid as [|c1 [|c2 [|c3 [|c4 [|c5 rest]]]]]; simpl; try discriminate.
  intros [= H1 H2 H3 H4].
  repeat split;
    match goal with
    | H : JsString.lowerChar ?c = ?l |- ?c = ?l \/ _ =>
        destruct (@lowerChar_letter c l eq_refl H) as [E | [E _]]; auto
    end.
Qed.

Lemma includes_lower_xray (s : string) :
  JsString.includes (JsString.toLowerCase s) "xray" = true -> ContainsXray s.
Proof.
  intros H. destruct (includes_true _ _ H) as (pre & post & E).
  destruct (toLowerCase_split _ _ _ E) as (s1 & s23 & -> & _ & E23).
  destruct (toLowerCase_split _ _ _ E23) as (s2 & s3 & -> & E2 & _).
  exists s1, s2, s3. split; [reflexivity|]. now apply lower_xray_spelled.
Qed.

Lemma loopback_test (clientAddr : string) :
  String.eqb clientAddr "127.0.0.1" || String.eqb clientAddr "::1"
  || String.eqb clientAddr "localhost" || JsString.startsWith clientAddr "127." = true
  <-> Loopback clientAddr.
Proof.
  unfold Loopback. split.
  - intros H. repeat (apply orb_prop in H as [H|H]).
    + apply String.eqb_eq in H. auto.
    + apply String.eqb_eq in H. auto.
    + apply String.eqb_eq in H. auto.
    + apply startsWith_true in H. auto.
  - intros [-> | [-> | [-> | [rest ->]]]]; try reflexivity.
    rewrite startsWith_app. apply orb_true_r.
Qed.

(** ** [isXrayIndexingRequest] *)

(** X4. [isXrayIndexingRequest] answers true exactly when the user id
    contains xray in some mix of cases, or the realm does, or the client
    address, once lower-cased, is 127.0.0.1, ::1 or localhost or starts with
    127.; a missing id, realm or address counts as the empty string and
    matches nothing. *)
Theorem isXrayIndexingRequest_exact (data : BeforeDownloadRequest.t) :
  isXrayIndexingRequest data = true <->
  (exists id, originatorId data = Some id /\ ContainsXray id)
  \/ (exists realm, originatorRealm data = Some realm /\ ContainsXray realm)
  \/ (exists address,
         clientAddressOf data = Some address
         /\ Loopback (JsString.toLowerCase address)).
Proof.
  unfold isXrayIndexingRequest, originatorId, originatorRealm, clientAddressOf.
  split.
  - destruct (chain (BeforeDownloadRequest.userContext data) UserContext.id)
      as [id|] eqn:Eid; cbn [option_map orElse].
    + destruct (JsString.includes (JsString.toLowerCase id) "xray") eqn:Hid.
      { intros _. left. exists id. split; [reflexivity|].
        now apply includes_lower_xray. }
      destruct (chain (BeforeDownloadRequest.userContext data) UserContext.realm)
        as [realm|] eqn:Erealm; cbn [option_map orElse].
      * destruct (JsString.includes (JsString.toLowerCase realm) "xray") eqn:Hrealm.
        { intros _. right. left. exists realm. split; [reflexivity|].
          now apply includes_lower_xray. }
        destruct (chain (BeforeDownloadRequest.metadata data)
                    DownloadMetadata.clientAddress) as [address|];
          cbn [orElse].
        -- destruct (String.eqb _ "127.0.0.1" || _ || _ || _) eqn:Haddr;
             [|discriminate].
           intros _. right. right. exists address. split; [reflexivity|].
           now apply loopback_test.
        -- discriminate.
      * change (JsString.includes EmptyString "xray") with false. cbv iota.
        destruct (chain (BeforeDownloadRequest.metadata data)
                    DownloadMetadata.clientAddress) as [address|];
          cbn [orElse].
        -- destruct (String.eqb _ "127.0.0.1" || _ || _ || _) eqn:Haddr;
             [|discriminate].
           intros _. right. right. exists address. split; [reflexivity|].
           now apply loopback_test.
        -- discriminate.
    + change (JsString.includes EmptyString "xray") with false. cbv iota.
      destruct (chain (BeforeDownloadRequest.userContext data) UserContext.realm)
        as [realm|] eqn:Erealm; cbn [option_map orElse].
      * destruct (JsString.includes (JsString.toLowerCase realm) "xray") eqn:Hrealm.
        { intros _. right. left. exists realm. split; [reflexivity|].
          now apply includes_lower_xray. }
        destruct (chain (BeforeDownloadRequest.metadata data)
                    DownloadMetadata.clientAddress) as [address|];
          cbn [orElse].
        -- destruct (String.eqb _ "127.0.0.1" || _ || _ || _) eqn:Haddr;
             [|discriminate].
           intros _. right. right. exists address. split; [reflexivity|].
           now apply loopback_test.
        -- discriminate.
      * change (JsString.includes EmptyString "xray") with false. cbv iota.
        destruct (chain (BeforeDownloadRequest.metadata data)
                    DownloadMetadata.clientAddress) as [address|];
          cbn [orElse].
        -- destruct (String.eqb _ "127.0.0.1" || _ || _ || _) eqn:Haddr;
             [|discriminate].
           intros _. right. right. exists address. split; [reflexivity|].
           now apply loopback_test.
        -- discriminate.
  - intros [(id & -> & Hid) | [(realm & -> & Hrealm) | (address & -> & Haddr)]];
      cbn [option_map orElse].
    + now rewrite (containsXray_includes Hid).
    + rewrite (containsXray_includes Hrealm).
      now destruct (JsString.includes _ "xray").
    + rewrite (proj2 (loopback_test _) Haddr).
      repeat match goal with
             | |- context [JsString.includes ?s "xray"] =>
                 destruct (JsString.includes s "xray")
             end; reflexivity.
Qed.

Lemma isXrayIndexingRequest_exact_witness :
  isXrayIndexingRequest
    (requestFor (Some (target (Some "generic-local") (Some "a/b/lib.jar") false false))
       "alice" "internal" "LocalHost") = true.
Proof.
  apply (proj2 (isXrayIndexingRequest_exact _)).
  right. right. exists "LocalHost". split; [reflexivity|].
  right. right. left. reflexivity.
Defined.

(** ** The three helpers, each on its own *)

(** Case analysis on settled calls leaves conjunctions of equivalences between
    constructor equations; this closes them. *)
Ltac settle_cases :=
  repeat match goal with
         | |- _ /\ _ => split
         | |- _ <-> _ => split
         | |- forall _, _ => intro
         | H : exists _, _ |- _ => destruct H
         | H : _ /\ _ |- _ => destruct H
         | H : _ \/ _ |- _ => destruct H
         | H : _ = _ |- _ => injection H; clear H; intros; subst
         end;
  simpl in *; try discriminate; try congruence;
  try solve [ repeat eexists; (reflexivity || congruence || eauto)
            | left; repeat eexists; (reflexivity || congruence || eauto)
            | right; repeat eexists; (reflexivity || congruence || eauto) ].

(** X1. [checkXrayAvailable] issues exactly one GET, to
    /xray/api/v1/system/ping. It returns true exactly when that call resolves
    with a body whose [status] is the string pong; it returns false exactly
    when the call resolves with another body or throws an error whose message
    can be formed; and it throws exactly when the call throws a value that
    [String] fails to convert, passing on what that conversion threw. *)
Theorem checkXrayAvailable_contract {World : Type} (context : PlatformHttp.t World)
  (st : State World) :
  let reply := PlatformHttp.get context "/xray/api/v1/system/ping" (world st) in
  exists outcome st',
    checkXrayAvailable context st = (outcome, st')
    /\ calls st' = (calls st ++ [GET "/xray/api/v1/system/ping"])%list
    /\ world st' = snd reply
    /\ (outcome = Returns true <->
        exists response,
          fst reply = PlatformHttp.Resolves response
          /\ Js.get (dataOf response) "status" = JStr "pong")
    /\ (outcome = Returns false <->
        (exists response,
            fst reply = PlatformHttp.Resolves response
            /\ Js.get (dataOf response) "status" <> JStr "pong")
        \/ (exists error,
               fst reply = PlatformHttp.Rejects error /\ describable error = true))
    /\ (forall fault,
           outcome = Throws fault <->
           exists status body,
             fst reply = PlatformHttp.Rejects (OtherValue (Raises fault) status body)).
Proof.
  cbn zeta. rewrite checkXrayAvailable_run. cbn zeta.
  eexists _, _. split; [reflexivity|]. split; [reflexivity|]. split; [reflexivity|].
  change XRAY_PING_API with "/xray/api/v1/system/ping".
  destruct (fst (PlatformHttp.get context "/xray/api/v1/system/ping" (world st)))
    as [response|error]; simpl.
  - pose proof (eqStr_true (Js.get (dataOf response) "status") "pong") as Hpong.
    destruct (Js.eqStr (Js.get (dataOf response) "status") "pong").
    + repeat split.
      * intros _. exists response. split; [reflexivity | now apply Hpong].
      * discriminate.
      * intros [(r & [= <-] & Hne) | (e & [=] & _)].
        exfalso. apply Hne. now apply Hpong.
      * discriminate.
      * intros (s & b & [=]).
    + repeat split.
      * discriminate.
      * intros (r & [= <-] & H). apply Hpong in H. discriminate H.
      * intros _. left. exists response. split; [reflexivity|].
        intros H. apply Hpong in H. discriminate H.
      * discriminate.
      * intros (s & b & [=]).
  - destruct error as [m s d|[t|e] s d]; simpl; settle_cases.
Qed.

(** X2. [getArtifactScanStatus] issues exactly one POST, to
    /xray/api/v1/artifact/status with the body [{ repo, path }]. What it
    returns is null or a truthy value, the [data.overall.status] of the
    response; it returns null exactly when the call throws an error whose
    message can be formed or the response has no truthy overall status (a
    missing field, the empty string); and it throws exactly when the call
    throws a value that [String] fails to convert. *)
Theorem getArtifactScanStatus_contract {World : Type} (context : PlatformHttp.t World)
  (repo path : string) (st : State World) :
  let body := JObj [("repo", JStr repo); ("path", JStr path)] in
  let reply :=
    PlatformHttp.post context "/xray/api/v1/artifact/status" body (world st) in
  exists outcome st',
    getArtifactScanStatus context repo path st = (outcome, st')
    /\ calls st' = (calls st ++ [POST "/xray/api/v1/artifact/status" body])%list
    /\ world st' = snd reply
    /\ (forall scanStatus,
           outcome = Returns scanStatus ->
           scanStatus = JNull
           \/ Js.truthy scanStatus = true
              /\ exists response,
                  fst reply = PlatformHttp.Resolves response
                  /\ scanStatus = Js.get (Js.get (dataOf response) "overall") "status")
    /\ (outcome = Returns JNull <->
        (exists error,
            fst reply = PlatformHttp.Rejects error /\ describable error = true)
        \/ exists response,
            fst reply = PlatformHttp.Resolves response
            /\ Js.truthy (Js.get (Js.get (dataOf response) "overall") "status") = false)
    /\ (forall fault,
           outcome = Throws fault <->
           exists status data,
             fst reply = PlatformHttp.Rejects (OtherValue (Raises fault) status data)).
Proof.
  cbn zeta. rewrite getArtifactScanStatus_run. cbn zeta.
  eexists _, _. split; [reflexivity|]. split; [reflexivity|]. split; [reflexivity|].
  change (PlatformHttp.post context XRAY_ARTIFACT_STATUS_API (statusBody repo path) (world st))
    with (PlatformHttp.post context "/xray/api/v1/artifact/status"
            (JObj [("repo", JStr repo); ("path", JStr path)]) (world st)).
  destruct (fst (PlatformHttp.post context "/xray/api/v1/artifact/status" _ (world st)))
    as [response|error]; unfold statusResult, scanStatusOf, overallStatus.
  - destruct (Js.truthy (Js.get (Js.get (dataOf response) "overall") "status")) eqn:Ht.
    + repeat split.
      * intros v [= <-]. right. split; [exact Ht | eauto].
      * intros [= E]. rewrite E in Ht. discriminate Ht.
      * intros [(e & [=] & _) | (r & [= <-] & H)]. rewrite Ht in H. discriminate H.
      * discriminate.
      * intros (s & d & [=]).
    + repeat split.
      * intros v [= <-]. left. reflexivity.
      * intros _. right. eauto.
      * discriminate.
      * intros (s & d & [=]).
  - destruct error as [m s d|[t|e] s d]; simpl; settle_cases.
Qed.

Lemma carries_statusCodeOf (response : HttpResponse.t) (code : Z) :
  carriesStatusCode response code <-> statusCodeOf (Some response) = Some code.
Proof.
  unfold carriesStatusCode, statusCodeOf. cbn [chain].
  destruct (HttpResponse.status response) as [c|];
    [|destruct (HttpResponse.statusCode response) as [c|]]; split;
    try (intros [H | [H1 H2]]); try intros H; try discriminate; auto; congruence.
Qed.

(** X3. [triggerForceReindexArtifact] issues exactly one POST, to
    /xray/api/v1/forceReindex with the one-artifact body. It returns false
    exactly when the call throws an error that can be logged, or the response
    carries a status code below 200, the code being [status] when present and
    [statusCode] otherwise; it throws exactly when the call throws a value
    that [String] fails to convert, or an error with response data that
    [JSON.stringify] fails on; every other response, also one without any
    status code or with a code of 300 or more, is answered true. *)
Theorem triggerForceReindexArtifact_contract {World : Type}
  (context : PlatformHttp.t World) (repo path : string) (st : State World) :
  let body :=
    JObj [("artifacts", JArr [JObj [("repository", JStr repo); ("path", JStr path)]])] in
  let reply :=
    PlatformHttp.post context "/xray/api/v1/forceReindex" body (world st) in
  exists outcome st',
    triggerForceReindexArtifact context repo path st = (outcome, st')
    /\ calls st' = (calls st ++ [POST "/xray/api/v1/forceReindex" body])%list
    /\ world st' = snd reply
    /\ (outcome = Returns false <->
        (exists error,
            fst reply = PlatformHttp.Rejects error
            /\ describable error = true /\ serializable error = true)
        \/ exists response code,
            fst reply = PlatformHttp.Resolves (Some response)
            /\ carriesStatusCode response code
            /\ code < 200)
    /\ (forall fault,
           outcome = Throws fault <->
           (exists status data,
               fst reply = PlatformHttp.Rejects (OtherValue (Raises fault) status data))
           \/ exists error,
               fst reply = PlatformHttp.Rejects error
               /\ describable error = true
               /\ responseBodyOf error = Some (Raises fault))
    /\ (outcome = Returns true <->
        exists response,
          fst reply = PlatformHttp.Resolves response
          /\ forall r code,
              response = Some r -> carriesStatusCode r code -> 200 <= code).
Proof.
  cbn zeta. rewrite triggerForceReindexArtifact_run. cbn zeta.
  eexists _, _. split; [reflexivity|]. split; [reflexivity|]. split; [reflexivity|].
  change (PlatformHttp.post context XRAY_FORCE_REINDEX_API (reindexBody repo path) (world st))
    with (PlatformHttp.post context "/xray/api/v1/forceReindex"
            (JObj [("artifacts",
                    JArr [JObj [("repository", JStr repo); ("path", JStr path)]])])
            (world st)).
  destruct (fst (PlatformHttp.post context "/xray/api/v1/forceReindex" _ (world st)))
    as [[response|]|error]; unfold reindexResult, reindexAccepted.
  - pose proof (carries_statusCodeOf response) as Hcode.
    destruct (statusCodeOf (Some response)) as [c|] eqn:Ec;
      [destruct (200 <=? c) eqn:Hc;
       [apply Z.leb_le in Hc | apply Z.leb_gt in Hc]|];
      settle_cases;
      repeat match goal with
             | H : carriesStatusCode _ _ |- _ => apply Hcode in H
             end;
      try congruence.
    all: try (match goal with
              | H : Some ?a = Some ?b |- _ => assert (a = b) by congruence
              end; lia).
    all: try (eexists; split; [reflexivity|];
              intros r code [= <-] Hcarry; apply Hcode in Hcarry;
              first [congruence | assert (c = code) by congruence; lia]).
    all: try (right; eexists _, c; split; [reflexivity|];
              split; [now apply Hcode | exact Hc]).
    all: try (match goal with
              | H : forall r code, _ = Some r -> _ -> 200 <= code |- _ =>
                  assert (200 <= c) by (eapply H; [reflexivity | now apply Hcode])
              end; lia).
  - settle_cases.
  - destruct error as [m s [[t|e]|]|[t|e] s [[t'|e']|]]; simpl; settle_cases.
Qed.

(** ** The decision table of the handler, read backwards *)

Lemma verdict_scanned (s : PlatformHttp.Settled) :
  verdictOf s = Scanned <->
  exists response,
    s = PlatformHttp.Resolves response
    /\ (Js.get (Js.get (dataOf response) "overall") "status" = JStr "DONE"
        \/ Js.get (Js.get (dataOf response) "overall") "status" = JStr "PARTIAL").
Proof.
  unfold verdictOf, overallStatus.
  destruct s as [response|error].
  - cbn zeta.
    destruct (Js.truthy (Js.get (Js.get (dataOf response) "overall") "status")) eqn:Ht.
    + destruct (Js.eqStr _ "DONE") eqn:Hd.
      * split; [|reflexivity]. intros _. exists response.
        apply eqStr_true in Hd. auto.
      * destruct (Js.eqStr _ "PARTIAL") eqn:Hp.
        -- split; [|reflexivity]. intros _. exists response.
           apply eqStr_true in Hp. auto.
        -- split; [discriminate|].
           intros (r & [= <-] & [H | H]); apply eqStr_true in H; congruence.
    + split; [discriminate|].
      intros (r & [= <-] & [H | H]); rewrite H in Ht; discriminate.
  - split; [discriminate|]. intros (r & H & _). discriminate.
Qed.

(** The outcome of a request the classifier turns away. *)
Lemma not_applicable_run {World : Type} (context : PlatformHttp.t World)
  (data : BeforeDownloadRequest.t) (w : World) :
  applicable data = false ->
  run (rescanWorker context data) w =
  (Returns
     (if falsy (repoKeyOf data) || falsy (artifactPathOf data)
      then respond DownloadStatus.DOWNLOAD_STOP cannotValidateMessage
      else if isFolderOrRoot data
      then respond DownloadStatus.DOWNLOAD_PROCEED
             "Skipping folder/root - scan check only applies to artifacts."
      else respond DownloadStatus.DOWNLOAD_PROCEED "Allowing Xray indexing request."),
   {| world := w; calls := [] |}).
Proof.
  unfold applicable, run, rescanWorker, rescanWorkerWith. intros H.
  destruct (falsy (repoKeyOf data) || falsy (artifactPathOf data)); [reflexivity|].
  destruct (isFolderOrRoot data); [reflexivity|].
  destruct (isXrayIndexingRequest data); [reflexivity|].
  discriminate.
Qed.

(** X5. Whatever the request and whatever the scanning service does, the
    calls of one invocation are an initial part of the sequence ping, status
    query, reindex trigger, the last two for the key and path of the request:
    no call is repeated, the status query never goes out without the ping
    before it, and the reindex trigger never without both. *)
Theorem calls_in_order {World : Type} (context : PlatformHttp.t World)
  (data : BeforeDownloadRequest.t) (w : World) :
  callsOf (run (rescanWorker context data) w) = []
  \/ exists repo path,
      repoKeyOf data = Some repo /\ artifactPathOf data = Some path
      /\ (callsOf (run (rescanWorker context data) w)
          = [GET "/xray/api/v1/system/ping"]
          \/ callsOf (run (rescanWorker context data) w)
             = [GET "/xray/api/v1/system/ping";
                POST "/xray/api/v1/artifact/status"
                  (JObj [("repo", JStr repo); ("path", JStr path)])]
          \/ callsOf (run (rescanWorker context data) w)
             = [GET "/xray/api/v1/system/ping";
                POST "/xray/api/v1/artifact/status"
                  (JObj [("repo", JStr repo); ("path", JStr path)]);
                POST "/xray/api/v1/forceReindex"
                  (JObj [("artifacts",
                          JArr [JObj [("repository", JStr repo);
                                      ("path", JStr path)]])])]).
Proof.
  destruct (applicable data) eqn:Happ.
  - right. destruct (applicable_target _ Happ) as (repo & path & Hk & Hp).
    exists repo, path. split; [exact Hk|]. split; [exact Hp|].
    rewrite (applicable_run context _ w Hk Hp Happ). cbn zeta.
    destruct (pingResult _) as [[|]|?]; [|left; reflexivity|left; reflexivity].
    destruct (statusResult _) as [scanStatus|?]; [|right; left; reflexivity].
    destruct (isScanned scanStatus); right; [left | right]; reflexivity.
  - left. rewrite (not_applicable_run context _ w Happ). reflexivity.
Qed.

(** X6. A response the handler returns has status DOWNLOAD_PROCEED,
    DOWNLOAD_STOP or DOWNLOAD_WARN (1, 2 or 3; never DOWNLOAD_UNSPECIFIED or
    UNRECOGNIZED) and empty headers. The handler does return a response when
    the classifier turns the request away, and when each call to the scanning
    service returns a response or throws an error that can be logged. *)
Theorem response_well_formed {World : Type} (context : PlatformHttp.t World)
  (data : BeforeDownloadRequest.t) (w : World) :
  (forall response st',
      run (rescanWorker context data) w = (Returns response, st') ->
      BeforeDownloadResponse.headers response = []
      /\ 1 <= DownloadStatus.value (BeforeDownloadResponse.status response) <= 3)
  /\ (applicable data = false
      \/ (exists repo path,
             repoKeyOf data = Some repo /\ artifactPathOf data = Some path
             /\ caught (fst (pingReply context w)) = true
             /\ caught (fst (statusReply context repo path w)) = true
             /\ logged (fst (reindexReply context repo path w)) = true) ->
      exists response st',
        run (rescanWorker context data) w = (Returns response, st')).
Proof.
  split.
  - intros response st'.
    destruct (applicable data) eqn:Happ.
    + destruct (applicable_target _ Happ) as (repo & path & Hk & Hp).
      rewrite (applicable_run context _ w Hk Hp Happ). cbn zeta.
      unfold remediationResult, outerCatch.
      repeat match goal with
             | |- context [match ?x with _ => _ end] => destruct x
             end;
        intros [= <- _]; split; try reflexivity; cbn; lia.
    + rewrite (not_applicable_run context _ w Happ).
      destruct (falsy (repoKeyOf data) || falsy (artifactPathOf data));
        [|destruct (isFolderOrRoot data)];
        intros [= <- _]; split; try reflexivity; cbn; lia.
  - intros [Happ | (repo & path & Hk & Hp & Hping & Hstatus & Hreindex)].
    + rewrite (not_applicable_run context _ w Happ). eauto.
    + destruct (applicable data) eqn:Happ;
        [|rewrite (not_applicable_run context _ w Happ); eauto].
      rewrite (applicable_run context _ w Hk Hp Happ). cbn zeta.
      destruct (livenessOk (fst (pingReply context w))) eqn:Hlive.
      * rewrite (pingResult_alive _ Hlive), (statusResult_caught _ Hstatus).
        destruct (isScanned _); [eauto|].
        unfold remediationResult. rewrite (reindexResult_logged _ Hreindex). eauto.
      * rewrite (pingResult_caught _ Hlive Hping). eauto.
Qed.

Lemma response_well_formed_witness :
  exists response st',
    run (rescanWorker (scriptedXray (rejects (ErrorObject "ECONNREFUSED"))
                         (rejects cyclicBodyError) (answers 200))
           aliceRequest) tt
    = (Returns response, st').
Proof.
  apply (proj2 (response_well_formed
                  (scriptedXray (rejects (ErrorObject "ECONNREFUSED"))
                     (rejects cyclicBodyError) (answers 200))
                  aliceRequest tt)).
  right. exists "generic-local", "a/b/lib.jar". repeat split.
Defined.

(** X7. The handler answers DOWNLOAD_WARN exactly when the request is
    applicable and the liveness probe fails in a way its [catch] block can
    log: the ping resolves with another body than pong, or throws an error
    whose message can be formed. No failure of the status query or of the
    reindex trigger lets a download through with a warning. *)
Theorem warns_only_on_liveness_failure {World : Type} (context : PlatformHttp.t World)
  (data : BeforeDownloadRequest.t) (w : World) :
  statusOf (run (rescanWorker context data) w) = Some DownloadStatus.DOWNLOAD_WARN
  <-> applicable data = true
      /\ livenessOk (fst (pingReply context w)) = false
      /\ caught (fst (pingReply context w)) = true.
Proof.
  destruct (applicable data) eqn:Happ.
  - destruct (applicable_target _ Happ) as (repo & path & Hk & Hp).
    rewrite (applicable_run context _ w Hk Hp Happ). cbn zeta.
    destruct (livenessOk (fst (pingReply context w))) eqn:Hlive.
    + rewrite (pingResult_alive _ Hlive). split; [|intros (_ & H & _); discriminate H].
      destruct (statusResult _) as [scanStatus|error].
      * destruct (isScanned scanStatus); [discriminate|].
        intros H. destruct (remediationResult_status
                              (fst (reindexReply context repo path w))
                              {| world := snd (reindexReply context repo path w);
                                 calls := [GET XRAY_PING_API;
                                           POST XRAY_ARTIFACT_STATUS_API (statusBody repo path);
                                           POST XRAY_FORCE_REINDEX_API (reindexBody repo path)] |})
          as [E|E]; rewrite E in H; discriminate H.
      * intros H. destruct (outerCatch_status error
                              {| world := snd (statusReply context repo path w);
                                 calls := [GET XRAY_PING_API;
                                           POST XRAY_ARTIFACT_STATUS_API (statusBody repo path)] |})
          as [E|E]; rewrite E in H; discriminate H.
    + destruct (caught (fst (pingReply context w))) eqn:Hcaught.
      * rewrite (pingResult_caught _ Hlive Hcaught). split; auto.
      * split; [|intros (_ & _ & H); discriminate H].
        destruct (fst (pingReply context w)) as [response|error];
          [discriminate Hcaught|].
        destruct (pingResult_fault _ Hcaught) as (fault & _ & E). rewrite E.
        intros H. destruct (outerCatch_status fault
                              {| world := snd (pingReply context w);
                                 calls := [GET XRAY_PING_API] |})
          as [E'|E']; rewrite E' in H; discriminate H.
  - rewrite (not_applicable_run context _ w Happ).
    destruct (falsy (repoKeyOf data) || falsy (artifactPathOf data));
      [|destruct (isFolderOrRoot data)]; cbn; split;
      try discriminate; intros [H _]; discriminate H.
Qed.

Lemma warns_only_on_liveness_failure_witness :
  statusOf (run (rescanWorker (scriptedXray (fails "ECONNREFUSED") (overall "DONE")
                                 (answers 200)) aliceRequest) tt)
  = Some DownloadStatus.DOWNLOAD_WARN.
Proof.
  apply (proj2 (warns_only_on_liveness_failure
                  (scriptedXray (fails "ECONNREFUSED") (overall "DONE") (answers 200))
                  aliceRequest tt)).
  repeat split.
Defined.

Lemma identity_present (data : BeforeDownloadRequest.t) (repo path : string) :
  repoKeyOf data = Some repo ->
  artifactPathOf data = Some path ->
  falsy (repoKeyOf data) || falsy (artifactPathOf data) = false
  <-> repo <> EmptyString /\ path <> EmptyString.
Proof.
  intros -> ->. destruct repo, path; simpl; split;
    try discriminate; try (intros [H1 H2]; congruence);
    intros _; split; discriminate.
Qed.

(** X8. A download is let through without a warning in exactly three
    situations: the target is a folder or a root, the request is recognised
    as Xray's own, or Xray is alive and the status query resolved with an
    overall status that is exactly the string DONE or PARTIAL; and in all
    three only when repository key and path are non-empty. Any other status
    value, such as one in lower case, does not let the download through. *)
Theorem proceeds_exactly_when {World : Type} (context : PlatformHttp.t World)
  (data : BeforeDownloadRequest.t) (repo path : string) (w : World) :
  repoKeyOf data = Some repo ->
  artifactPathOf data = Some path ->
  statusOf (run (rescanWorker context data) w) = Some DownloadStatus.DOWNLOAD_PROCEED
  <-> repo <> EmptyString /\ path <> EmptyString
      /\ (isFolderOrRoot data = true
          \/ isXrayIndexingRequest data = true
          \/ (livenessOk (fst (pingReply context w)) = true
              /\ exists response,
                  fst (statusReply context repo path w) = PlatformHttp.Resolves response
                  /\ (Js.get (Js.get (dataOf response) "overall") "status" = JStr "DONE"
                      \/ Js.get (Js.get (dataOf response) "overall") "status"
                         = JStr "PARTIAL"))).
Proof.
  intros Hk Hp.
  pose proof (identity_present _ Hk Hp) as Hid.
  pose proof (verdict_scanned (fst (statusReply context repo path w))) as Hscan.
  destruct (applicable data) eqn:Happ.
  - rewrite (applicable_run context _ w Hk Hp Happ). cbn zeta.
    apply applicable_true in Happ as (Hm & Hf & Hx).
    apply Hid in Hm as [Hrepo Hpath].
    destruct (livenessOk (fst (pingReply context w))) eqn:Hlive.
    + rewrite (pingResult_alive _ Hlive).
      destruct (verdictOf (fst (statusReply context repo path w))) eqn:Hverdict.
      * rewrite (statusResult_caught _
                   (known_verdict_caught _ ltac:(rewrite Hverdict; discriminate))).
        rewrite (proj2 (isScanned_verdict _) Hverdict). split; [|reflexivity].
        intros _. repeat split; trivial. right. right. split; [reflexivity|].
        now apply Hscan.
      * split.
        -- rewrite (statusResult_caught _
                      (known_verdict_caught _ ltac:(rewrite Hverdict; discriminate))).
           destruct (isScanned _) eqn:E;
             [apply isScanned_verdict in E; congruence|].
           intros H. destruct (remediationResult_status
                                 (fst (reindexReply context repo path w))
                                 {| world := snd (reindexReply context repo path w);
                                    calls := [GET XRAY_PING_API;
                                              POST XRAY_ARTIFACT_STATUS_API (statusBody repo path);
                                              POST XRAY_FORCE_REINDEX_API (reindexBody repo path)] |})
             as [E'|E']; rewrite E' in H; discriminate H.
        -- intros (_ & _ & [H | [H | [_ H]]]); try congruence.
           apply Hscan in H. discriminate.
      * split.
        -- destruct (statusResult _) as [scanStatus|error] eqn:Es.
           ++ assert (Hc : caught (fst (statusReply context repo path w)) = true).
              { destruct (caught _) eqn:Hc; [reflexivity|].
                destruct (statusResult_fault context repo path w Hc) as [fault Hfault].
                congruence. }
              rewrite (statusResult_caught _ Hc) in Es. injection Es as <-.
              destruct (isScanned _) eqn:E;
                [apply isScanned_verdict in E; congruence|].
              intros H. destruct (remediationResult_status
                                    (fst (reindexReply context repo path w))
                                    {| world := snd (reindexReply context repo path w);
                                       calls := [GET XRAY_PING_API;
                                                 POST XRAY_ARTIFACT_STATUS_API (statusBody repo path);
                                                 POST XRAY_FORCE_REINDEX_API (reindexBody repo path)] |})
                as [E'|E']; rewrite E' in H; discriminate H.
           ++ intros H. destruct (outerCatch_status error
                                    {| world := snd (statusReply context repo path w);
                                       calls := [GET XRAY_PING_API;
                                                 POST XRAY_ARTIFACT_STATUS_API (statusBody repo path)] |})
                as [E'|E']; rewrite E' in H; discriminate H.
        -- intros (_ & _ & [H | [H | [_ H]]]); try congruence.
           apply Hscan in H. discriminate.
    + split; [|intros (_ & _ & [H | [H | [H _]]]); congruence].
      destruct (pingResult_not_alive context w Hlive) as [E | [fault E]]; rewrite E.
      * discriminate.
      * intros H. destruct (outerCatch_status fault
                              {| world := snd (pingReply context w);
                                 calls := [GET XRAY_PING_API] |})
          as [E'|E']; rewrite E' in H; discriminate H.
  - rewrite (not_applicable_run context _ w Happ).
    unfold applicable in Happ.
    destruct (falsy (repoKeyOf data) || falsy (artifactPathOf data)) eqn:Hm.
    + cbn. split; [discriminate|].
      intros (Hrepo & Hpath & _).
      assert (E : true = false) by (apply Hid; split; assumption).
      discriminate E.
    + destruct (proj1 Hid eq_refl) as [Hrepo Hpath].
      destruct (isFolderOrRoot data) eqn:Hf; cbn; split; auto.
      intros _. repeat split; trivial. right. left.
      cbn in Happ. now apply negb_false_iff in Happ.
Qed.

Lemma proceeds_exactly_when_witness :
  statusOf (run (rescanWorker (scriptedXray pong (overall "done") (answers 200))
                   aliceRequest) tt)
  <> Some DownloadStatus.DOWNLOAD_PROCEED.
Proof.
  intros H.
  apply (proj1 (@proceeds_exactly_when unit
                  (scriptedXray pong (overall "done") (answers 200))
                  aliceRequest "generic-local" "a/b/lib.jar" tt eq_refl eq_refl))
    in H.
  destruct H as (_ & _ & [H | [H | (_ & response & Hr & [Hd | Hd])]]);
    try discriminate H;
    vm_compute in Hr; injection Hr as <-; discriminate Hd.
Defined.

(** X9. The reindex trigger goes out exactly when the request is applicable,
    the liveness probe succeeds, the status query did not resolve with the
    overall status DONE or PARTIAL, and, if the status query threw, the
    message of its error can be formed. *)
Theorem reindex_exactly_when {World : Type} (context : PlatformHttp.t World)
  (data : BeforeDownloadRequest.t) (repo path : string) (w : World) :
  repoKeyOf data = Some repo ->
  artifactPathOf data = Some path ->
  reindexCalls (callsOf (run (rescanWorker context data) w)) <> []
  <-> applicable data = true
      /\ livenessOk (fst (pingReply context w)) = true
      /\ ~ (exists response,
               fst (statusReply context repo path w) = PlatformHttp.Resolves response
               /\ (Js.get (Js.get (dataOf response) "overall") "status" = JStr "DONE"
                   \/ Js.get (Js.get (dataOf response) "overall") "status"
                      = JStr "PARTIAL"))
      /\ caught (fst (statusReply context repo path w)) = true.
Proof.
  intros Hk Hp.
  pose proof (verdict_scanned (fst (statusReply context repo path w))) as Hscan.
  split.
  - intros Hcalls.
    destruct (@reindex_invoked _ context data repo path w Hk Hp Hcalls)
      as (Happ & Hlive & Hverdict & Hcaught).
    repeat split; trivial. intros H. apply Hverdict, Hscan, H.
  - intros (Happ & Hlive & Hverdict & Hcaught).
    rewrite (@remediation_run _ context data repo path w Hk Hp Happ Hlive).
    + discriminate.
    + intros H. apply Hverdict, Hscan, H.
    + exact Hcaught.
Qed.

Lemma reindex_exactly_when_witness :
  reindexCalls
    (callsOf (run (rescanWorker (scriptedXray pong (overall "done") (answers 200))
                     aliceRequest) tt)) <> [].
Proof.
  apply (proj2 (@reindex_exactly_when unit
                  (scriptedXray pong (overall "done") (answers 200))
                  aliceRequest "generic-local" "a/b/lib.jar" tt eq_refl eq_refl)).
  repeat split.
  intros (response & Hr & [Hd | Hd]);
    vm_compute in Hr; injection Hr as <-; discriminate Hd.
Defined.

(** X10. When each call to the scanning service returns a response or throws
    an error that can be logged, the handler answers DOWNLOAD_STOP exactly
    when the repository key or the path is missing or empty, or the reindex
    trigger went out: a blocked download on a well-identified request then
    always comes with a remediation attempt. *)
Theorem stops_exactly_when {World : Type} (context : PlatformHttp.t World)
  (data : BeforeDownloadRequest.t) (w : World) :
  (forall repo path,
      repoKeyOf data = Some repo ->
      artifactPathOf data = Some path ->
      caught (fst (pingReply context w)) = true
      /\ caught (fst (statusReply context repo path w)) = true
      /\ logged (fst (reindexReply context repo path w)) = true) ->
  statusOf (run (rescanWorker context data) w) = Some DownloadStatus.DOWNLOAD_STOP
  <-> falsy (repoKeyOf data) || falsy (artifactPathOf data) = true
      \/ reindexCalls (callsOf (run (rescanWorker context data) w)) <> [].
Proof.
  intros Hhandled.
  destruct (applicable data) eqn:Happ.
  - destruct (applicable_target _ Happ) as (repo & path & Hk & Hp).
    destruct (Hhandled repo path Hk Hp) as (Hping & Hstatus & Hreindex).
    rewrite (applicable_run context _ w Hk Hp Happ). cbn zeta.
    apply applicable_true in Happ as (Hm & _ & _). rewrite Hm.
    destruct (livenessOk (fst (pingReply context w))) eqn:Hlive.
    + rewrite (pingResult_alive _ Hlive), (statusResult_caught _ Hstatus).
      destruct (isScanned _).
      * cbn. split; [discriminate|].
        intros [H | H]; [discriminate H | exfalso; apply H; reflexivity].
      * unfold remediationResult. rewrite (reindexResult_logged _ Hreindex).
        cbn. split; [intros _; right; discriminate | reflexivity].
    + rewrite (pingResult_caught _ Hlive Hping). cbn. split; [discriminate|].
      intros [H | H]; [discriminate H | exfalso; apply H; reflexivity].
  - rewrite (not_applicable_run context _ w Happ).
    destruct (falsy (repoKeyOf data) || falsy (artifactPathOf data));
      [|destruct (isFolderOrRoot data)]; cbn; split; auto;
      try discriminate;
      intros [H | H]; [discriminate H | exfalso; apply H; reflexivity
                      | discriminate H | exfalso; apply H; reflexivity].
Qed.

Lemma stops_exactly_when_witness :
  statusOf (run (rescanWorker (scriptedXray pong (fails "status failed") (fails "timeout"))
                   aliceRequest) tt)
  = Some DownloadStatus.DOWNLOAD_STOP.
Proof.
  apply (proj2 (@stops_exactly_when unit
                  (scriptedXray pong (fails "status failed") (fails "timeout"))
                  aliceRequest tt
                  ltac:(intros; repeat split))).
  right. vm_compute. discriminate.
Defined.

(** ** What the handler reads of a request *)

(** X11. The handler reads six things of a request: key, path and the
    folder/root flags of [metadata.repoPath], the id and realm of
    [userContext], and [metadata.clientAddress]. Two requests that agree on
    them are handled alike, response and calls both; the request headers, the
    top-level [repoPath], [originalRepoPath] and [isToken] change nothing. *)
Theorem reads_only_its_fields {World : Type} (context : PlatformHttp.t World)
  (data data' : BeforeDownloadRequest.t) (st : State World) :
  repoKeyOf data = repoKeyOf data' ->
  artifactPathOf data = artifactPathOf data' ->
  isFolderOrRoot data = isFolderOrRoot data' ->
  originatorId data = originatorId data' ->
  originatorRealm data = originatorRealm data' ->
  clientAddressOf data = clientAddressOf data' ->
  rescanWorker context data st = rescanWorker context data' st.
Proof.
  unfold originatorId, originatorRealm, clientAddressOf.
  intros Hk Hp Hf Hi Hr Ha.
  unfold rescanWorker, rescanWorkerWith, isXrayIndexingRequest.
  rewrite Hk, Hp, Hf, Hi, Hr, Ha. reflexivity.
Qed.

Lemma reads_only_its_fields_witness :
  rescanWorker (scriptedXray pong (overall "NOT_SCANNED") (answers 200))
    aliceRequest {| world := tt; calls := [] |}
  = rescanWorker (scriptedXray pong (overall "NOT_SCANNED") (answers 200))
      aliceRequestVariant {| world := tt; calls := [] |}.
Proof.
  apply reads_only_its_fields; reflexivity.
Defined.

(** ** Faults that can be logged, and faults that cannot *)

(** X12. On an applicable request, when the liveness probe resolves with
    another body than pong, or throws an error whose message can be formed,
    the handler proceeds with a warning and the ping is the only call made:
    neither the status endpoint nor the reindex endpoint is called. *)
Theorem liveness_failure_warns {World : Type} (context : PlatformHttp.t World)
  (data : BeforeDownloadRequest.t) (w : World) :
  applicable data = true ->
  livenessOk (fst (pingReply context w)) = false ->
  caught (fst (pingReply context w)) = true ->
  run (rescanWorker context data) w =
  (Returns (respond DownloadStatus.DOWNLOAD_WARN warningMessage),
   {| world := snd (pingReply context w); calls := [GET XRAY_PING_API] |}).
Proof.
  intros Happ Hlive Hcaught.
  destruct (applicable_target _ Happ) as (repo & path & Hk & Hp).
  rewrite (applicable_run context _ w Hk Hp Happ). cbn zeta.
  rewrite (pingResult_caught _ Hlive Hcaught). reflexivity.
Qed.

Lemma liveness_failure_warns_witness :
  run (rescanWorker (scriptedXray (fails "ECONNREFUSED") (overall "DONE") (answers 200))
         aliceRequest) tt =
  (Returns (respond DownloadStatus.DOWNLOAD_WARN warningMessage),
   {| world := tt; calls := [GET XRAY_PING_API] |}).
Proof.
  apply (@liveness_failure_warns unit
           (scriptedXray (fails "ECONNREFUSED") (overall "DONE") (answers 200))
           aliceRequest tt); reflexivity.
Defined.

(** X13. What the outer [catch] does, whatever the three stages are: when
    the [try] block throws an [Error], the handler returns Stop with the
    message Error during scan validation: followed by the error's message;
    when it throws another value that [String] converts, the same with the
    converted text; when it throws a value that [String] fails to convert,
    the handler throws what that conversion threw. The calls made before the
    fault stay made. *)
Theorem outer_catch_exact {World : Type}
  (checkAvailable : Async World bool)
  (getScanStatus : string -> string -> Async World JsVal)
  (triggerReindex : string -> string -> Async World bool)
  (data : BeforeDownloadRequest.t) (repo path : string)
  (st st' : State World) (error : Thrown) :
  repoKeyOf data = Some repo ->
  artifactPathOf data = Some path ->
  applicable data = true ->
  resolveAndRemediate checkAvailable getScanStatus triggerReindex repo path st
  = (Throws error, st') ->
  (forall message status body,
      error = ErrorValue message status body ->
      rescanWorkerWith checkAvailable getScanStatus triggerReindex data st
      = (Returns (respond DownloadStatus.DOWNLOAD_STOP
                    ("Error during scan validation: " ++ message
                     ++ ". Please try again.")),
         st'))
  /\ (forall text status body,
         error = OtherValue (Yields text) status body ->
         rescanWorkerWith checkAvailable getScanStatus triggerReindex data st
         = (Returns (respond DownloadStatus.DOWNLOAD_STOP
                       ("Error during scan validation: " ++ text
                        ++ ". Please try again.")),
            st'))
  /\ (forall fault status body,
         error = OtherValue (Raises fault) status body ->
         rescanWorkerWith checkAvailable getScanStatus triggerReindex data st
         = (Throws fault, st')).
Proof.
  intros Hk Hp Happ Hthrows.
  rewrite (applicable_enters_try _ _ _ _ st Hk Hp Happ), Hthrows.
  repeat split; intros; subst error; reflexivity.
Qed.

Lemma outer_catch_exact_witness :
  rescanWorkerWith brokenProbe
    (getArtifactScanStatus (scriptedXray pong (overall "DONE") (answers 200)))
    (triggerForceReindexArtifact (scriptedXray pong (overall "DONE") (answers 200)))
    aliceRequest {| world := tt; calls := [] |}
  = (Returns (respond DownloadStatus.DOWNLOAD_STOP
                "Error during scan validation: socket hang up. Please try again."),
     {| world := tt; calls := [] |}).
Proof.
  apply (proj1 (@outer_catch_exact unit brokenProbe
                  (getArtifactScanStatus (scriptedXray pong (overall "DONE") (answers 200)))
                  (triggerForceReindexArtifact
                     (scriptedXray pong (overall "DONE") (answers 200)))
                  aliceRequest "generic-local" "a/b/lib.jar"
                  {| world := tt; calls := [] |} {| world := tt; calls := [] |}
                  (ErrorObject "socket hang up")
                  eq_refl eq_refl eq_refl eq_refl)
           "socket hang up" None None).
  reflexivity.
Defined.
